(** * DEX Manager test harness: page objects, polling helpers and bootstrap

A shallow embedding of the TypeScript sources
  - src/pages/BasePage.ts      (Base Interaction Layer)
  - src/pages/ContentPage.ts   (content page object)
  - src/utils/helpers.ts       (WaitHelper, TestDataHelper, ValidationHelper)
  - src/config/global-setup.ts, src/config/env.ts
and the properties of them that the specification states, followed by
further properties that the code itself shows.

The code is a client of collaborators that live outside the repository:
the Playwright driver, Node's timers, file system and JSON parser, and
the callbacks a caller hands in.  They are an interface here (the class
[Runtime]); every property is proved for all implementations of it, and
the concrete runs use the small implementations of the section
"Fixtures".

Numbers: the JavaScript numbers that occur (attempt counts, delays in
milliseconds, element counts) are modelled as integers [Z]. *)

From Stdlib Require Import ZArith Ascii String List Lia.
From stdpp Require Import base tactics option list strings gmap pretty.

Local Open Scope Z_scope.

(** ** JavaScript values the code handles *)

(** A thrown value.  Everything the sources throw or catch is an [Error]
    object; [exn_name] is its [name] ("Error", "TimeoutError", ...). *)
Record Exn := mkExn { exn_name : string; exn_message : string }.

#[global] Instance Exn_eq_dec : EqDecision Exn.
Proof. solve_decision. Defined.

(** [new Error(msg)] *)
Definition Error (msg : string) : Exn := mkExn "Error" msg.

(** The error Playwright raises when a wait runs out of time. *)
Definition TimeoutError (msg : string) : Exn := mkExn "TimeoutError" msg.

(** [`${error}`], that is [Error.prototype.toString]. *)
Definition exn_toString (e : Exn) : string :=
  if decide (exn_name e = "") then exn_message e
  else if decide (exn_message e = "") then exn_name e
  else exn_name e +:+ ": " +:+ exn_message e.

(** How a promise settles. *)
Inductive Settled (A : Type) : Type :=
| Fulfilled (a : A)
| Rejected (e : Exn).
Arguments Fulfilled {A} a.
Arguments Rejected {A} e.

(** A parsed JSON document. *)
#[local] Set Warnings "-register-all".
Inductive Json : Type :=
| JNull
| JBool (b : bool)
| JNum (n : Z)
| JStr (s : string)
| JArr (items : list Json)
| JObj (fields : list (string * Json)).

(** ** Locators

    A locator is a description of elements, resolved by the driver at each
    use.  The constructors are the Playwright combinators the page objects
    use. *)
Inductive Locator : Type :=
| Css (selector : string)                 (* page.locator(selector) *)
| ByRole (role name : string)             (* page.getByRole(role, { name }) *)
| LocIn (parent : Locator) (selector : string)   (* parent.locator(selector) *)
| LocOr (a b : Locator)                   (* a.or(b) *)
| LocFirst (l : Locator)                  (* l.first() *)
| LocNth (l : Locator) (index : Z).       (* l.nth(index) *)

#[global] Instance Locator_eq_dec : EqDecision Locator.
Proof. solve_decision. Defined.

(** The [state] option of [locator.waitFor]. *)
Inductive ElemState : Type := Visible | Hidden | Attached | Detached.

#[global] Instance ElemState_eq_dec : EqDecision ElemState.
Proof. solve_decision. Defined.

(** A dialog the page raised. *)
Definition Dialog : Type := nat.

(** ** The collaborators' interface

    [Call T] is a request to a collaborator whose promise fulfils with a
    [T]. *)
Inductive Call : Type -> Type :=
(* Playwright locators *)
| LWaitFor (l : Locator) (state : ElemState) (timeout : option Z) : Call unit
| LClick (l : Locator) : Call unit
| LFill (l : Locator) (value : string) : Call unit
| LHover (l : Locator) : Call unit
| LSelectOption (l : Locator) (value : string) : Call unit
| LTextContent (l : Locator) : Call (option string)
| LSetInputFiles (l : Locator) (files : list string) : Call unit
| LCount (l : Locator) : Call Z
| LIsChecked (l : Locator) : Call bool
| LGetAttribute (l : Locator) (name : string) : Call (option string)
(* Playwright dialogs *)
| DialogAccept (d : Dialog) : Call unit
| DialogDismiss (d : Dialog) : Call unit
(* Playwright page and browser, as global-setup uses them *)
| ChromiumLaunch : Call unit
| BrowserNewPage : Call unit
| BrowserClose : Call unit
| PageGoto (url : string) : Call unit
| PageWaitForURL (pattern : string) (timeout : Z) : Call unit
| ContextStorageState (path : string) : Call unit
(* Node *)
| DotenvConfig : Call (list (string * string))
| PathResolve (dir : string) : Call string
| FsExistsSync (path : string) : Call bool
| FsMkdirSync (path : string) : Call unit
| FsReadFileSync (path encoding : string) : Call string
| JsonParse (text : string) : Call Json
| ConsoleLog (text : string) : Call unit
| ConsoleError (text : string) : Call unit.

(** A caller-supplied asynchronous function [() => Promise<A>], acting on
    the collaborators' state. *)
Definition Callback (X A : Type) : Type := X -> Settled A * X.

(** [X] is the state of everything outside the process under study: the
    browser and the application in it, the clock, the file system. *)
Class Runtime (X : Type) : Type := {
  (** a request, its outcome and the state after it *)
  perform : forall T, Call T -> X -> Settled T * X;
  (** [await new Promise(resolve => setTimeout(resolve, ms))]: time passes;
      such a promise is never rejected *)
  elapse : Z -> X -> X
}.
Arguments perform {X _ T} c x.

(** What the code did to its collaborators, in program order.  The trace is
    ghost state: the code never reads it. *)
Inductive Event : Type :=
| EvCall {T : Type} (c : Call T)
| EvSleep (ms : Z)
| EvCondition (outcome : Settled bool).

(** The two closures the page object registers as dialog listeners. *)
Inductive DialogListener : Type :=
| AcceptListener      (* async dialog => { await dialog.accept(); } *)
| DismissListener.    (* async dialog => { await dialog.dismiss(); } *)

#[global] Instance DialogListener_eq_dec : EqDecision DialogListener.
Proof. solve_decision. Defined.

(** The state a run threads: the trace, the listeners registered on the
    page's 'dialog' event, [process.env], and the collaborators' state. *)
Record World (X : Type) : Type := mkWorld {
  trace : list Event;
  dialog_listeners : list DialogListener;
  env : gmap string string;
  ext : X
}.
Arguments mkWorld {X} _ _ _ _.
Arguments trace {X} _.
Arguments dialog_listeners {X} _.
Arguments env {X} _.
Arguments ext {X} _.

(** ** The monad of asynchronous code

    An [async] function body run to completion: [None] when the model's
    loop fuel ran out, otherwise how the promise settled and the world
    after it. *)
Definition M (X A : Type) : Type := World X -> option (Settled A * World X).

Definition ret {X A} (a : A) : M X A := fun w => Some (Fulfilled a, w).

Definition throw {X A} (e : Exn) : M X A := fun w => Some (Rejected e, w).

Definition out_of_fuel {X A} : M X A := fun _ => None.

Definition bind {X A B} (m : M X A) (k : A -> M X B) : M X B :=
  fun w =>
    match m w with
    | Some (Fulfilled a, w') => k a w'
    | Some (Rejected e, w') => Some (Rejected e, w')
    | None => None
    end.

(** [try { body } catch (error) { handler }] *)
Definition try_catch {X A} (body : M X A) (handler : Exn -> M X A) : M X A :=
  fun w =>
    match body w with
    | Some (Fulfilled a, w') => Some (Fulfilled a, w')
    | Some (Rejected e, w') => handler e w'
    | None => None
    end.

(** [try { body } finally { cleanup }] *)
Definition try_finally {X A} (body : M X A) (cleanup : M X unit) : M X A :=
  fun w =>
    match body w with
    | Some (r, w') =>
        match cleanup w' with
        | Some (Fulfilled _, w'') => Some (r, w'')
        | Some (Rejected e, w'') => Some (Rejected e, w'')
        | None => None
        end
    | None => None
    end.

Declare Scope js_scope.
Delimit Scope js_scope with js.
Notation "'let!' x ':=' m 'in' k" := (bind m (fun x => k))
  (at level 10, x name, m at level 100, k at level 200) : js_scope.
Notation "'await' m 'in' k" := (bind m (fun _ => k))
  (at level 10, m at level 100, k at level 200) : js_scope.
Local Open Scope js_scope.

Definition log_event {X} (ev : Event) (w : World X) : World X :=
  mkWorld (trace w ++ [ev]) (dialog_listeners w) (env w) (ext w).

Definition set_ext {X} (x : X) (w : World X) : World X :=
  mkWorld (trace w) (dialog_listeners w) (env w) x.

(** A request to a collaborator. *)
Definition call {X} `{Runtime X} {T} (c : Call T) : M X T :=
  fun w =>
    let '(r, x') := perform c (ext w) in
    Some (r, log_event (EvCall c) (set_ext x' w)).

(** [await new Promise(resolve => setTimeout(resolve, ms))] *)
Definition setTimeout {X} `{Runtime X} (ms : Z) : M X unit :=
  fun w => Some (Fulfilled tt, log_event (EvSleep ms) (set_ext (elapse ms (ext w)) w)).

(** [await condition()] *)
Definition invoke {X} (condition : Callback X bool) : M X bool :=
  fun w =>
    let '(r, x') := condition (ext w) in
    Some (r, log_event (EvCondition r) (set_ext x' w)).

(** ** src/pages/BasePage.ts *)
Module BasePage.
Section WithRuntime.
Context {X : Type} `{Runtime X}.

Definition click (locator : Locator) : M X unit :=
  await call (LWaitFor locator Visible None) in
  call (LClick locator).

Definition fill (locator : Locator) (value : string) : M X unit :=
  await call (LWaitFor locator Visible None) in
  call (LFill locator value).

Definition waitForVisible (locator : Locator) (timeout : option Z) : M X unit :=
  call (LWaitFor locator Visible timeout).

Definition waitForHidden (locator : Locator) (timeout : option Z) : M X unit :=
  call (LWaitFor locator Hidden timeout).

(** [return await locator.textContent() || ''] *)
Definition getText (locator : Locator) : M X string :=
  await call (LWaitFor locator Visible None) in
  let! t := call (LTextContent locator) in
  ret (match t with
       | Some s => s      (* an empty text is falsy too, and '' replaces it *)
       | None => ""
       end).

Definition isVisible (locator : Locator) : M X bool :=
  try_catch
    (await call (LWaitFor locator Visible (Some 5000)) in
     ret true)
    (fun _ => ret false).

Definition selectOption (locator : Locator) (value : string) : M X unit :=
  await call (LWaitFor locator Visible None) in
  call (LSelectOption locator value).

Definition hover (locator : Locator) : M X unit :=
  await call (LWaitFor locator Visible None) in
  call (LHover locator).

(** [this.page.on('dialog', listener)]: Node's [EventEmitter.on] adds the
    listener to the end of the event's listener array; it removes and
    replaces nothing. *)
Definition page_on_dialog (listener : DialogListener) : M X unit :=
  fun w => Some (Fulfilled tt,
                 mkWorld (trace w) (dialog_listeners w ++ [listener]) (env w) (ext w)).

Definition acceptAlert : M X unit := page_on_dialog AcceptListener.

Definition dismissAlert : M X unit := page_on_dialog DismissListener.

(** The body of a registered listener, run on a dialog. *)
Definition run_listener (listener : DialogListener) (dialog : Dialog) : M X unit :=
  match listener with
  | AcceptListener => call (DialogAccept dialog)
  | DismissListener => call (DialogDismiss dialog)
  end.

(** The page emits 'dialog': [EventEmitter.emit] calls every registered
    listener, in registration order.  The promise an [async] listener
    returns is dropped, so a rejection in one listener stops neither the
    emitter nor the listeners after it. *)
Fixpoint emit_to (listeners : list DialogListener) (dialog : Dialog) : M X unit :=
  match listeners with
  | [] => ret tt
  | listener :: rest =>
      await try_catch (run_listener listener dialog) (fun _ => ret tt) in
      emit_to rest dialog
  end.

Definition emit_dialog (dialog : Dialog) : M X unit :=
  fun w => emit_to (dialog_listeners w) dialog w.

End WithRuntime.
End BasePage.

(** ** String constants the sources spell with escapes *)

Definition dquote : string := String "034"%char EmptyString.
Definition newline : string := String "010"%char EmptyString.

(** ** src/pages/ContentPage.ts *)
Module ContentPage.
Import BasePage.

(** The view modes, and the sentinel ['unknown']. *)
Inductive ViewMode : Type :=
| ViewGrid       (* 'grid' *)
| ViewList       (* 'list' *)
| ViewCard       (* 'card' *)
| ViewUnknown.   (* 'unknown' *)

#[global] Instance ViewMode_eq_dec : EqDecision ViewMode.
Proof. solve_decision. Defined.

(** Locators the constructor declares. *)
Definition addButton : Locator := LocIn (Css "#mainFab") "#paperFab".
Definition uploadFilesButton : Locator := ByRole "button" "Subir Archivo".
Definition fileInput : Locator :=
  LocOr (Css "#fileupload #fileInput")
        (LocFirst (Css ("input[type=" +:+ dquote +:+ "file" +:+ dquote +:+ "]"))).
Definition uploadSuccess : Locator := Css ".success".
Definition selectItems : Locator := ByRole "button" "Selección de Items".
Definition selectAllCheckbox : Locator := ByRole "option" "Todos".
Definition selectNoneCheckbox : Locator := ByRole "option" "Ninguno".
Definition viewModeButton : Locator := ByRole "button" "Cambiar Vista".
Definition gridViewButton : Locator := ByRole "option" "Grilla Pequeña".
Definition listViewButton : Locator := ByRole "option" "Lista Detallada".
Definition cardViewButton : Locator := ByRole "option" "Tarjetas Grandes".

Section WithRuntime.
Context {X : Type} `{Runtime X}.

Definition uploadSingleFile (filePath : string) : M X unit :=
  await click addButton in
  await click uploadFilesButton in
  await call (LSetInputFiles fileInput [filePath]) in
  waitForVisible uploadSuccess None.

Definition uploadMultipleFiles (filePaths : list string) : M X unit :=
  await click addButton in
  await click uploadFilesButton in
  await call (LSetInputFiles fileInput filePaths) in
  await waitForVisible
    (Css "div:nth-child(1) > .horizontal > .file-status-icon > .success") None in
  waitForVisible
    (Css "div:nth-child(2) > .horizontal > .file-status-icon > .success") None.

Definition uploadByDragAndDrop (filePaths : list string) : M X unit :=
  await call (LSetInputFiles fileInput filePaths) in
  await waitForVisible
    (Css "div:nth-child(1) > .horizontal > .file-status-icon > .success") None in
  waitForVisible
    (Css "div:nth-child(2) > .horizontal > .file-status-icon > .success") None.

Definition selectAllItems : M X unit :=
  await waitForVisible selectItems None in
  await click selectItems in
  await waitForVisible selectAllCheckbox None in
  click selectAllCheckbox.

Definition selectNoneItems : M X unit :=
  await waitForVisible selectItems None in
  await click selectItems in
  await waitForVisible selectNoneCheckbox None in
  click selectNoneCheckbox.

Definition openViewModeMenu : M X unit := click viewModeButton.
Definition switchToGridView : M X unit := click gridViewButton.
Definition switchToListView : M X unit := click listViewButton.
Definition switchToCardView : M X unit := click cardViewButton.

Definition waitForUploadComplete : M X unit := waitForVisible uploadSuccess None.

(** [for (let i = 0; i < count; i++) { if (!await checkboxes.nth(i).isChecked()) return false; } return true;]
    from the state [i]. *)
Fixpoint areAllItemsChecked_loop (fuel : nat) (checkboxes : Locator) (count i : Z)
  : M X bool :=
  match fuel with
  | O => out_of_fuel
  | S fuel' =>
      if i <? count then
        let! checked := call (LIsChecked (LocNth checkboxes i)) in
        if negb checked then ret false
        else areAllItemsChecked_loop fuel' checkboxes count (i + 1)
      else ret true
  end.

Definition areAllItemsChecked : M X bool :=
  let checkboxes :=
    Css (".media-card paper-checkbox[role=" +:+ dquote +:+ "checkbox" +:+ dquote +:+ "]") in
  let! count := call (LCount checkboxes) in
  if count =? 0 then ret false
  else areAllItemsChecked_loop (S (Z.to_nat count)) checkboxes count 0.

(** [for (const option of options) { if (await option.locator.getAttribute('aria-selected') === 'true') return option.value; } return 'unknown';] *)
Fixpoint getActiveViewMode_scan (options : list (Locator * ViewMode)) : M X ViewMode :=
  match options with
  | [] => ret ViewUnknown
  | (locator, value) :: rest =>
      let! selected := call (LGetAttribute locator "aria-selected") in
      if decide (selected = Some "true") then ret value
      else getActiveViewMode_scan rest
  end.

Definition getActiveViewMode : M X ViewMode :=
  let options :=
    [ (gridViewButton, ViewGrid); (listViewButton, ViewList); (cardViewButton, ViewCard) ] in
  getActiveViewMode_scan options.

End WithRuntime.
End ContentPage.

(** ** src/utils/helpers.ts *)
Module WaitHelper.
Section WithRuntime.
Context {X : Type} `{Runtime X}.

(** [while (attempt < maxAttempts) { ... attempt++; } throw new Error(...)]
    from the state [attempt]. *)
Fixpoint waitWithBackoff_loop (fuel : nat) (condition : Callback X bool)
    (maxAttempts baseDelay attempt : Z) : M X unit :=
  match fuel with
  | O => out_of_fuel
  | S fuel' =>
      if attempt <? maxAttempts then
        let! ok := invoke condition in
        if ok then ret tt
        else
          let delay := baseDelay * 2 ^ attempt in
          await setTimeout delay in
          waitWithBackoff_loop fuel' condition maxAttempts baseDelay (attempt + 1)
      else
        throw (Error ("La condición no se cumplió después de "
                      +:+ pretty maxAttempts +:+ " intentos"))
  end.

Definition waitWithBackoff (condition : Callback X bool) (maxAttempts baseDelay : Z)
  : M X unit :=
  let attempt := 0 in
  waitWithBackoff_loop (S (Z.to_nat maxAttempts)) condition maxAttempts baseDelay attempt.

(** The defaults [maxAttempts = 10], [baseDelay = 1000]. *)
Definition waitWithBackoff_default (condition : Callback X bool) : M X unit :=
  waitWithBackoff condition 10 1000.

End WithRuntime.
End WaitHelper.

Module TestDataHelper.
Section WithRuntime.
Context {X : Type} `{Runtime X}.

Definition loadTestData (filePath : string) : M X Json :=
  try_catch
    (let! data := call (FsReadFileSync filePath "utf8") in
     call (JsonParse data))
    (fun error =>
       throw (Error ("Error al cargar los datos de prueba desde " +:+ filePath
                     +:+ ": " +:+ exn_toString error))).

End WithRuntime.
End TestDataHelper.

(** ** src/types/testData.ts: the shape [ContentData]

    The interface is a compile-time type; [is_ContentData] decides whether
    a parsed document has that shape (every declared property present with
    the declared type; further properties are allowed). *)
Module ContentData.

Definition field (name : string) (j : Json) : option Json :=
  match j with
  | JObj fields => snd <$> List.find (fun kv => bool_decide (fst kv = name)) fields
  | _ => None
  end.

Definition is_string (j : option Json) : bool :=
  match j with Some (JStr _) => true | _ => false end.

Definition is_number (j : option Json) : bool :=
  match j with Some (JNum _) => true | _ => false end.

Definition has_strings (names : list string) (j : option Json) : bool :=
  match j with
  | Some o => forallb (fun name => is_string (field name o)) names
  | None => false
  end.

Definition has_numbers (names : list string) (j : option Json) : bool :=
  match j with
  | Some o => forallb (fun name => is_number (field name o)) names
  | None => false
  end.

Definition is_ContentData (j : Json) : bool :=
  has_strings ["specialChars"; "prefix"] (field "folderNames" j)
  && has_strings ["invalid"] (field "urls" j)
  && has_strings ["searchTerm"] (field "search" j)
  && has_numbers ["largeFileUploadTimeout"; "multipleOperationsTimeout"]
       (field "performance" j)
  && has_strings ["duplicate"] (field "errorPatterns" j)
  && has_strings ["grid"; "list"; "card"] (field "viewModes" j).

End ContentData.

(** ** [process.env] *)
Module ProcessEnv.
Section WithRuntime.
Context {X : Type}.

(** [!process.env[key]]: the variable is undefined or the empty string. *)
Definition unset (e : gmap string string) (key : string) : bool :=
  match e !! key with
  | None => true
  | Some value => bool_decide (value = "")
  end.

(** [process.env[key] || fallback] *)
Definition or_else (e : gmap string string) (key fallback : string) : string :=
  match e !! key with
  | None => fallback
  | Some value => if decide (value = "") then fallback else value
  end.

(** [`${process.env[key]}`] *)
Definition show (e : gmap string string) (key : string) : string :=
  match e !! key with
  | None => "undefined"
  | Some value => value
  end.

Definition read : M X (gmap string string) :=
  fun w => Some (Fulfilled (env w), w).

(** One assignment of a .env file: variables already set keep their value. *)
Definition assign (e : gmap string string) (kv : string * string) : gmap string string :=
  match e !! fst kv with
  | None => <[fst kv := snd kv]> e
  | Some _ => e
  end.

Definition load (parsed : list (string * string)) : M X unit :=
  fun w => Some (Fulfilled tt,
                 mkWorld (trace w) (dialog_listeners w)
                         (fold_left assign parsed (env w)) (ext w)).

(** [dotenv.config()]: reads the .env file, if there is one, and adds its
    assignments to [process.env].  A failure to read the file is reported
    in the value it returns, which the callers drop; it does not throw. *)
Definition dotenv_config `{Runtime X} : M X unit :=
  fun w =>
    match call DotenvConfig w with
    | Some (Fulfilled parsed, w') => load parsed w'
    | Some (Rejected _, w') => Some (Fulfilled tt, w')
    | None => None
    end.

End WithRuntime.
End ProcessEnv.

(** ** src/config/env.ts *)
Module Env.
Section WithRuntime.
Context {X : Type} `{Runtime X}.

Definition validateEnvironment : M X unit :=
  let required := ["BASE_URL"; "USER_EMAIL"; "USER_PASSWORD"] in
  let! e := ProcessEnv.read in
  let missing := List.filter (fun key => ProcessEnv.unset e key) required in
  if bool_decide (0 < length missing)%nat then
    throw (Error ("Missing required environment variables: "
                  +:+ String.concat ", " missing))
  else ret tt.

End WithRuntime.
End Env.

(** ** src/config/global-setup.ts *)
Module GlobalSetup.
Section WithRuntime.
Context {X : Type} `{Runtime X}.

(** [for (const dir of directories) { ... }] *)
Fixpoint create_directories (directories : list string) : M X unit :=
  match directories with
  | [] => ret tt
  | dir :: rest =>
      let! resolved := call (PathResolve dir) in
      let! present := call (FsExistsSync resolved) in
      await (if negb present then
               await call (FsMkdirSync resolved) in
               call (ConsoleLog ("[Global Setup] Created directory: " +:+ resolved))
             else ret tt) in
      create_directories rest
  end.

(** The [try] block: log in and save the storage state. *)
Definition authenticate (e : gmap string string) : M X unit :=
  await call (ConsoleLog "[Global Setup] Authenticating...") in
  await call (PageGoto (ProcessEnv.show e "BASE_URL")) in
  await call (LFill (ByRole "textbox" "User") (ProcessEnv.show e "USER_EMAIL")) in
  await call (LFill (ByRole "textbox" "Password") (ProcessEnv.show e "USER_PASSWORD")) in
  await call (LClick (ByRole "button" "Login")) in
  await call (PageWaitForURL ".*dashboard" 30000) in
  await call (ContextStorageState "auth/storageState.json") in
  call (ConsoleLog
    "[Global Setup] Authentication successful. Storage state saved to auth/storageState.json.").

Definition globalSetup : M X unit :=
  await ProcessEnv.dotenv_config in
  let required := ["BASE_URL"; "USER_EMAIL"; "USER_PASSWORD"] in
  let! e := ProcessEnv.read in
  let missing := List.filter (fun key => ProcessEnv.unset e key) required in
  if bool_decide (0 < length missing)%nat then
    throw (Error ("Global setup failed — missing required environment variables: "
                  +:+ String.concat ", " missing +:+ "." +:+ newline
                  +:+ "Copy .env.example to .env and fill in the values."))
  else
    await call (ConsoleLog (newline +:+ "[Global Setup] BASE_URL: "
                            +:+ ProcessEnv.show e "BASE_URL")) in
    let directories :=
      [ ProcessEnv.or_else e "TEST_FILES_PATH" "./test-files";
        ProcessEnv.or_else e "SCREENSHOTS_PATH" "./screenshots";
        ProcessEnv.or_else e "DOWNLOADS_PATH" "./downloads" ] in
    await create_directories directories in
    await call ChromiumLaunch in
    await call BrowserNewPage in
    await try_finally
      (try_catch (authenticate e)
         (fun error =>
            await call (ConsoleError ("[Global Setup] Authentication failed: "
                                      +:+ exn_toString error)) in
            throw error))
      (call BrowserClose) in
    call (ConsoleLog ("[Global Setup] Environment validated. Ready to run tests."
                      +:+ newline)).

End WithRuntime.
End GlobalSetup.

(** ** Fixtures: a small implementation of the collaborators

    A [Stage] is a page whose content does not change by being looked at:
    which elements are visible, which are not in the document at all (a
    read of them times out), which carry [aria-selected="true"], the
    states of the item checkboxes, the files on disk and what [JSON.parse]
    makes of their text.  [pending] counts the polls still to go before an
    awaited state is reached, and [clock] adds up the time slept. *)
Module Fixture.

Record Stage : Type := mkStage {
  visible : list Locator;
  detached : list Locator;
  selected : list Locator;
  checkboxes : list bool;
  files : list (string * string);
  documents : list (string * Json);
  dotenv : list (string * string);
  pending : nat;
  clock : Z
}.

Definition lookup_text {A} (key : string) (table : list (string * A)) : option A :=
  snd <$> List.find (fun kv => bool_decide (fst kv = key)) table.

Definition stage_perform (T : Type) (c : Call T) (x : Stage) : Settled T * Stage :=
  match c in Call T return Settled T * Stage with
  | LWaitFor l Visible _ =>
      if bool_decide (l ∈ visible x) then (Fulfilled tt, x)
      else (Rejected (TimeoutError "locator.waitFor: Timeout exceeded."), x)
  | LWaitFor l Hidden _ =>
      if bool_decide (l ∈ visible x)
      then (Rejected (TimeoutError "locator.waitFor: Timeout exceeded."), x)
      else (Fulfilled tt, x)
  | LWaitFor _ _ _ => (Fulfilled tt, x)
  | LClick _ | LFill _ _ | LHover _ | LSelectOption _ _ | LSetInputFiles _ _ =>
      (Fulfilled tt, x)
  | LTextContent _ => (Fulfilled None, x)
  | LCount _ => (Fulfilled (Z.of_nat (length (checkboxes x))), x)
  | LIsChecked (LocNth _ i) =>
      (Fulfilled (if bool_decide (0 <= i)
                  then nth (Z.to_nat i) (checkboxes x) false else false), x)
  | LIsChecked _ => (Fulfilled false, x)
  | LGetAttribute l _ =>
      if bool_decide (l ∈ detached x)
      then (Rejected (TimeoutError "locator.getAttribute: Timeout exceeded."), x)
      else (Fulfilled (Some (if bool_decide (l ∈ selected x) then "true" else "false")), x)
  | DialogAccept _ | DialogDismiss _ => (Fulfilled tt, x)
  | ChromiumLaunch | BrowserNewPage | BrowserClose => (Fulfilled tt, x)
  | PageGoto _ | PageWaitForURL _ _ | ContextStorageState _ => (Fulfilled tt, x)
  | DotenvConfig => (Fulfilled (dotenv x), x)
  | PathResolve dir => (Fulfilled dir, x)
  | FsExistsSync _ => (Fulfilled true, x)
  | FsMkdirSync _ => (Fulfilled tt, x)
  | FsReadFileSync path _ =>
      match lookup_text path (files x) with
      | Some text => (Fulfilled text, x)
      | None => (Rejected (Error ("ENOENT: no such file or directory, open " +:+ path)), x)
      end
  | JsonParse text =>
      match lookup_text text (documents x) with
      | Some j => (Fulfilled j, x)
      | None => (Rejected (mkExn "SyntaxError" "Unexpected token"), x)
      end
  | ConsoleLog _ | ConsoleError _ => (Fulfilled tt, x)
  end.

Definition stage_elapse (ms : Z) (x : Stage) : Stage :=
  mkStage (visible x) (detached x) (selected x) (checkboxes x) (files x) (documents x) (dotenv x)
          (pending x) (clock x + ms).

#[global] Instance stage_runtime : Runtime Stage :=
  {| perform := stage_perform; elapse := stage_elapse |}.



Definition empty_stage : Stage := mkStage [] [] [] [] [] [] [] O 0.

(** A fresh process on a stage: nothing done yet, no listeners, the given
    environment. *)
Definition start (e : gmap string string) (x : Stage) : World Stage :=
  mkWorld [] [] e x.

End Fixture.

(** ** Vocabulary of the properties *)
Module Props.

(** The world [w] after the code made the requests [events] and the
    collaborators reached the state [x]. *)
Definition after {X} (w : World X) (events : list Event) (x : X) : World X :=
  mkWorld (trace w ++ events) (dialog_listeners w) (env w) x.

(** The four actions of the Base Interaction Layer. *)
Inductive Action : Type :=
| DoClick
| DoFill (value : string)
| DoHover
| DoSelectOption (value : string).

Definition run_action {X} `{Runtime X} (a : Action) (locator : Locator) : M X unit :=
  match a with
  | DoClick => BasePage.click locator
  | DoFill value => BasePage.fill locator value
  | DoHover => BasePage.hover locator
  | DoSelectOption value => BasePage.selectOption locator value
  end.

(** The driver request that carries the action out. *)
Definition action_call (a : Action) (locator : Locator) : Call unit :=
  match a with
  | DoClick => LClick locator
  | DoFill value => LFill locator value
  | DoHover => LHover locator
  | DoSelectOption value => LSelectOption locator value
  end.

(** The explicit wait that precedes an action (no timeout of its own:
    the driver's configured one applies). *)
Definition visible_wait (locator : Locator) : Call unit :=
  LWaitFor locator Visible None.

(** Registering a dialog policy. *)
Definition register {X} `{Runtime X} (listener : DialogListener) : M X unit :=
  match listener with
  | AcceptListener => BasePage.acceptAlert
  | DismissListener => BasePage.dismissAlert
  end.

(** The request a listener makes on a dialog. *)
Definition listener_call (dialog : Dialog) (listener : DialogListener) : Call unit :=
  match listener with
  | AcceptListener => DialogAccept dialog
  | DismissListener => DialogDismiss dialog
  end.

(** The dialog policies a trace shows applied, in order. *)
Fixpoint applied (events : list Event) : list DialogListener :=
  match events with
  | [] => []
  | EvCall c :: rest =>
      match c with
      | DialogAccept _ => AcceptListener :: applied rest
      | DialogDismiss _ => DismissListener :: applied rest
      | _ => applied rest
      end
  | _ :: rest => applied rest
  end.









(** The variables the bootstrap requires. *)
Definition required : list string := ["BASE_URL"; "USER_EMAIL"; "USER_PASSWORD"].

(** The required variables that [e] leaves unset, in the order of
    [required]. *)
Definition missing (e : gmap string string) : list string :=
  List.filter (fun key => ProcessEnv.unset e key) required.

(** The error of [globalSetup] for the missing variables [names]. *)
Definition setup_error (names : list string) : Exn :=
  Error ("Global setup failed — missing required environment variables: "
         +:+ String.concat ", " names +:+ "." +:+ newline
         +:+ "Copy .env.example to .env and fill in the values.").

(** The error of [validateEnvironment] for the missing variables [names]. *)
Definition validation_error (names : list string) : Exn :=
  Error ("Missing required environment variables: " +:+ String.concat ", " names).

(** The error of [loadTestData] for the file [filePath] and the cause
    [cause]. *)
Definition load_error (filePath : string) (cause : Exn) : Exn :=
  Error ("Error al cargar los datos de prueba desde " +:+ filePath
         +:+ ": " +:+ exn_toString cause).

(** The success indicator of the [k]-th file of an upload (from 1). *)
Definition file_success (k : Z) : Locator :=
  Css ("div:nth-child(" +:+ pretty k +:+ ") > .horizontal > .file-status-icon > .success").

(** The locators a trace shows waited for to become visible. *)
Fixpoint awaited_visible (events : list Event) : list Locator :=
  match events with
  | [] => []
  | EvCall c :: rest =>
      match c with
      | LWaitFor l Visible _ => l :: awaited_visible rest
      | _ => awaited_visible rest
      end
  | _ :: rest => awaited_visible rest
  end.

(** The view-option controls, in scan order. *)
Definition view_options : list (Locator * ContentPage.ViewMode) :=
  [ (ContentPage.gridViewButton, ContentPage.ViewGrid);
    (ContentPage.listViewButton, ContentPage.ViewList);
    (ContentPage.cardViewButton, ContentPage.ViewCard) ].

(** The mode of the first control, in scan order, whose attribute reads
    "true"; ['unknown'] when there is none. *)
Fixpoint first_selected (attribute : Locator -> option string)
    (options : list (Locator * ContentPage.ViewMode)) : ContentPage.ViewMode :=
  match options with
  | [] => ContentPage.ViewUnknown
  | (locator, value) :: rest =>
      if decide (attribute locator = Some "true") then value
      else first_selected attribute rest
  end.

(** The item checkboxes. *)
Definition item_checkboxes : Locator :=
  Css (".media-card paper-checkbox[role=" +:+ dquote +:+ "checkbox" +:+ dquote +:+ "]").

End Props.

(** ** Scenarios: the stages and processes of the concrete runs *)
Module Scenario.
Import Fixture Props.

(** Nothing on the page. *)
Definition blank : World Stage := start ∅ empty_stage.

(** The view-mode menu is closed: its options are not in the document. *)
Definition closed_menu : World Stage :=
  start ∅ (mkStage [] [ContentPage.gridViewButton; ContentPage.listViewButton;
                       ContentPage.cardViewButton] [] [] [] [] [] O 0).

(** The view-mode menu is open and the list view is the active one. *)
Definition list_view : World Stage :=
  start ∅ (mkStage [] [] [ContentPage.listViewButton] [] [] [] [] O 0).

(** What [list_view] answers when asked for an aria-selected attribute. *)
Definition list_view_attribute (l : Locator) : option string :=
  Some (if bool_decide (l ∈ [ContentPage.listViewButton]) then "true" else "false").

(** The upload dialog once three files were uploaded with success. *)
Definition three_uploaded : World Stage :=
  start ∅ (mkStage [ContentPage.addButton; ContentPage.uploadFilesButton;
                    file_success 1; file_success 2; file_success 3]
                   [] [] [] [] [] [] O 0).

(** The upload dialog once a single file was uploaded with success. *)
Definition one_uploaded : World Stage :=
  start ∅ (mkStage [ContentPage.addButton; ContentPage.uploadFilesButton; file_success 1]
                   [] [] [] [] [] [] O 0).

(** Two items, both checked. *)
Definition two_checked : World Stage :=
  start ∅ (mkStage [] [] [] [true; true] [] [] [] O 0).

(** The states of the checkboxes of [two_checked]. *)
Definition two_checked_state (i : Z) : bool :=
  if bool_decide (0 <= i) then nth (Z.to_nat i) [true; true] false else false.

(** The test-data file holds the text [{}], the empty JSON object. *)
Definition empty_object_file : World Stage :=
  start ∅ (mkStage [] [] [] [] [("src/data/contentData.json", "{}")]
                   [("{}", JObj [])] [] O 0).



(** A process that has BASE_URL but neither USER_EMAIL nor USER_PASSWORD,
    and no .env file. *)
Definition no_credentials : World Stage :=
  start {["BASE_URL" := "https://demo4.dexmanager.com/"]} empty_stage.

End Scenario.

(** ** src/pages/ContentPage.ts: folder, selection and deletion flows *)
Module ContentFlows.
Import BasePage.

(** Further locators the constructor declares. *)
Definition folderOption : Locator := ByRole "button" "Carpeta".
Definition folderNameInput : Locator := ByRole "textbox" "Nuevo Nombre".
Definition acceptButton : Locator := ByRole "button" "Aceptar".
Definition confirmDialog : Locator := Css "paper-dialog[opened]".
Definition confirmDeleteButton : Locator := ByRole "button" "Aceptar".
Definition loadingSpinner : Locator := Css ".layout.vertical.center-center.container".
Definition deleteButton : Locator := ByRole "button" "Eliminar Ítems Seleccionados".
Definition copyButton : Locator := ByRole "button" "Copiar Ítems Seleccionados".
Definition cutButton : Locator := ByRole "button" "Cortar Ítems Seleccionados".
Definition pasteButton : Locator := ByRole "button" "Pegar Ítems Seleccionados".
Definition contentItems : Locator :=
  Css (".content-item, .file-item, [data-testid=" +:+ dquote +:+ "content-item" +:+ dquote
       +:+ "], #dexFilesTree [role=" +:+ dquote +:+ "option" +:+ dquote +:+ "]").

(** [page.locator(`.media-card[title="${name}"]`)] *)
Definition mediaCard (name : string) : Locator :=
  Css (".media-card[title=" +:+ dquote +:+ name +:+ dquote +:+ "]").



Section WithRuntime.
Context {X : Type} `{Runtime X}.

Definition enterFolderName (folderName : string) : M X unit :=
  await click ContentPage.addButton in
  await click folderOption in
  fill folderNameInput folderName.

Definition createFolder (folderName : string) : M X unit :=
  await enterFolderName folderName in
  await click acceptButton in
  waitForHidden confirmDialog None.

(** [await card.hover(); await checkbox.click();]: the driver's own
    requests, without the page object's visibility waits. *)
Definition selectContentItem (itemName : string) : M X unit :=
  let card := mediaCard itemName in
  let checkbox := LocIn card ".media-card-checkbox" in
  await call (LHover card) in
  call (LClick checkbox).

Definition deleteSelectedContent : M X unit :=
  await click deleteButton in
  await click confirmDeleteButton in
  await waitForHidden confirmDialog None in
  waitForHidden loadingSpinner None.

Definition copySelectedContent : M X unit := click copyButton.
Definition cutSelectedContent : M X unit := click cutButton.
Definition pasteSelectedContent : M X unit := click pasteButton.

Definition contentItemExists (itemName : string) : M X bool :=
  isVisible (mediaCard itemName).

Definition getContentItemCount : M X Z := call (LCount contentItems).


End WithRuntime.
End ContentFlows.

(** ** Vocabulary of the further properties *)
Module Observe.
Import Props.



(** The reads of the checkboxes [first], [first + 1], ... ([count] of them). *)
Definition checkbox_reads (first count : Z) : list Event :=
  map (fun i => EvCall (LIsChecked (LocNth item_checkboxes i))) (seqZ first count).

(** The events of the requests [script], made in order. *)
Definition requested (script : list (Call unit)) : list Event :=
  map (fun c => EvCall c) script.

(** The collaborators fulfilled the request [c], in some state. *)
Definition fulfilled_somewhere {X} `{Runtime X} (c : Call unit) : Prop :=
  exists x0 x1 : X, perform c x0 = (Fulfilled tt, x1).

(** A run of the requests [script], one after the other, that stops at the
    first one the collaborators reject: the requests made are the first
    [n] of the script, and all but perhaps the last were fulfilled; the run
    is fulfilled when all were made and fulfilled, and rejected with the
    error of the last one made otherwise. *)
Definition script_outcome {X} `{Runtime X} (script : list (Call unit))
    (r : Settled unit) (events : list Event) : Prop :=
  exists n : nat,
    events = requested (take n script)
    /\ match r with
       | Fulfilled _ => n = length script /\ Forall fulfilled_somewhere script
       | Rejected e =>
           exists (c : Call unit) (x0 x1 : X),
             script !! pred n = Some c /\ (0 < n)%nat
             /\ perform c x0 = (Rejected e, x1)
             /\ Forall fulfilled_somewhere (take (pred n) script)
       end.

(** Every run of [m] ends, and its outcome and the events it adds satisfy
    [Q]. *)
Definition runs {X A} (m : M X A) (Q : Settled A -> list Event -> Prop) : Prop :=
  forall w : World X,
    exists (r : Settled A) (events : list Event) (x : X),
      m w = Some (r, after w events x) /\ Q r events.

(** The requests of the flows, in program order. *)
Definition click_requests (l : Locator) : list (Call unit) :=
  [LWaitFor l Visible None; LClick l].

Definition createFolder_requests (folderName : string) : list (Call unit) :=
  click_requests ContentPage.addButton
  ++ click_requests ContentFlows.folderOption
  ++ [LWaitFor ContentFlows.folderNameInput Visible None;
      LFill ContentFlows.folderNameInput folderName]
  ++ click_requests ContentFlows.acceptButton
  ++ [LWaitFor ContentFlows.confirmDialog Hidden None].

Definition deleteSelectedContent_requests : list (Call unit) :=
  click_requests ContentFlows.deleteButton
  ++ click_requests ContentFlows.confirmDeleteButton
  ++ [LWaitFor ContentFlows.confirmDialog Hidden None;
      LWaitFor ContentFlows.loadingSpinner Hidden None].

Definition selectContentItem_requests (itemName : string) : list (Call unit) :=
  [LHover (ContentFlows.mediaCard itemName);
   LClick (LocIn (ContentFlows.mediaCard itemName) ".media-card-checkbox")].

Definition select_requests (option : Locator) : list (Call unit) :=
  [LWaitFor ContentPage.selectItems Visible None]
  ++ click_requests ContentPage.selectItems
  ++ [LWaitFor option Visible None]
  ++ click_requests option.

(** The requests of the [try] block of globalSetup. *)
Definition authenticate_requests (e : gmap string string) : list (Call unit) :=
  [ConsoleLog "[Global Setup] Authenticating...";
   PageGoto (ProcessEnv.show e "BASE_URL");
   LFill (ByRole "textbox" "User") (ProcessEnv.show e "USER_EMAIL");
   LFill (ByRole "textbox" "Password") (ProcessEnv.show e "USER_PASSWORD");
   LClick (ByRole "button" "Login");
   PageWaitForURL ".*dashboard" 30000;
   ContextStorageState "auth/storageState.json";
   ConsoleLog
     "[Global Setup] Authentication successful. Storage state saved to auth/storageState.json."].

(** Recognisers of requests in a trace. *)
Definition is_request (p : forall T, Call T -> bool) (ev : Event) : bool :=
  match ev with
  | EvCall c => p _ c
  | _ => false
  end.

Definition is_new_page : Event -> bool :=
  is_request (fun _ c => match c with BrowserNewPage => true | _ => false end).

Definition is_close : Event -> bool :=
  is_request (fun _ c => match c with BrowserClose => true | _ => false end).

Definition is_launch : Event -> bool :=
  is_request (fun _ c => match c with ChromiumLaunch => true | _ => false end).

Definition is_storage_state : Event -> bool :=
  is_request (fun _ c => match c with ContextStorageState _ => true | _ => false end).


Definition is_browser : Event -> bool :=
  is_request (fun _ c =>
                match c with
                | ChromiumLaunch | BrowserNewPage | BrowserClose
                | ContextStorageState _ => true
                | _ => false
                end).

(** Events among which there is no launch, no new page, no close and no
    saving of the storage state. *)
Definition quiet (events : list Event) : Prop :=
  forallb (fun ev => negb (is_browser ev)) events = true.

(** The last request of a fulfilled globalSetup. *)
Definition final_log : Call unit :=
  ConsoleLog ("[Global Setup] Environment validated. Ready to run tests." +:+ newline).

(** The shapes of a run of globalSetup, from the loading of the .env file
    on, in the environment [e]: it stops before a browser is launched
    ([before] holds the requests made until then), or at the launch, or at
    the opening of the page, or it goes through the login requests
    ([login]), reports a failed login ([report]), closes the browser and,
    if all went well, logs its last line ([rest]). *)
Definition setup_shape {X} `{Runtime X} (e : gmap string string)
    (r : Settled unit) (events : list Event) : Prop :=
  exists before : list Event,
    quiet before
    /\ ((exists e0, r = Rejected e0 /\ events = before)
        \/ (exists e0, r = Rejected e0 /\ events = before ++ [EvCall ChromiumLaunch])
        \/ (exists e0, r = Rejected e0
                       /\ events = before ++ [EvCall ChromiumLaunch; EvCall BrowserNewPage])
        \/ (exists (r1 : Settled unit) (login report rest : list Event),
               script_outcome (authenticate_requests e) r1 login
               /\ events = before ++ [EvCall ChromiumLaunch; EvCall BrowserNewPage]
                           ++ login ++ report ++ [EvCall BrowserClose] ++ rest
               /\ match r1 with
                  | Fulfilled _ =>
                      report = []
                      /\ ((exists e0, r = Rejected e0 /\ rest = [])
                          \/ rest = [EvCall final_log])
                  | Rejected _ =>
                      (exists text, report = [EvCall (ConsoleError text)])
                      /\ rest = [] /\ exists e0, r = Rejected e0
                  end)).

(** The events after the first one that [p] recognises. *)
Fixpoint after_first (p : Event -> bool) (events : list Event) : list Event :=
  match events with
  | [] => []
  | ev :: rest => if p ev then rest else after_first p rest
  end.

End Observe.

(** ** Further fixtures and scenarios *)
Module Fixture2.
Import Fixture.

(** A stage on which the login never reaches the dashboard: the wait for
    the dashboard URL times out. *)
Record Refused : Type := mkRefused { refused_stage : Stage }.

Definition refused_perform (T : Type) (c : Call T) (x : Refused) : Settled T * Refused :=
  match c in Call T return Settled T * Refused with
  | PageWaitForURL _ _ =>
      (Rejected (TimeoutError "page.waitForURL: Timeout exceeded."), x)
  | c' =>
      let '(r, s) := stage_perform _ c' (refused_stage x) in (r, mkRefused s)
  end.

#[global] Instance refused_runtime : Runtime Refused :=
  {| perform := refused_perform;
     elapse := fun ms x => mkRefused (stage_elapse ms (refused_stage x)) |}.

(** An environment with the three required variables. *)
Definition credentials : gmap string string :=
  {[ "BASE_URL" := "https://demo4.dexmanager.com/";
     "USER_EMAIL" := "qa@example.com";
     "USER_PASSWORD" := "secret" ]}.

(** A process with credentials on a blank stage. *)
Definition with_credentials : World Stage := start credentials empty_stage.

(** The same process where the login is refused. *)
Definition refused_login : World Refused :=
  mkWorld [] [] credentials (mkRefused empty_stage).

(** A process whose USER_EMAIL is set to the empty string. *)
Definition empty_email : World Stage :=
  start (<["USER_EMAIL" := ""]> credentials) empty_stage.

(** Three items, the second one unchecked. *)
Definition second_unchecked : World Stage :=
  start ∅ (mkStage [] [] [] [true; false; true] [] [] [] O 0).

(** The states of the checkboxes of [second_unchecked]. *)
Definition second_unchecked_state (i : Z) : bool :=
  if bool_decide (0 <= i) then nth (Z.to_nat i) [true; false; true] false else false.

End Fixture2.

(** ** src/config/env.ts: typed access to the configuration *)
Module EnvConfig.

(** [keyof Config] *)
Inductive ConfigKey : Type :=
| baseUrl | userEmail | userPassword
| testTimeout | actionTimeout | navigationTimeout
| testFilesPath | screenshotsPath | downloadsPath
| headless | slowMo
| reportPath | tracePath
| contentModulePath | playerModulePath.

Definition key_name (key : ConfigKey) : string :=
  match key with
  | baseUrl => "baseUrl" | userEmail => "userEmail" | userPassword => "userPassword"
  | testTimeout => "testTimeout" | actionTimeout => "actionTimeout"
  | navigationTimeout => "navigationTimeout"
  | testFilesPath => "testFilesPath" | screenshotsPath => "screenshotsPath"
  | downloadsPath => "downloadsPath"
  | headless => "headless" | slowMo => "slowMo"
  | reportPath => "reportPath" | tracePath => "tracePath"
  | contentModulePath => "contentModulePath" | playerModulePath => "playerModulePath"
  end.

(** The values that occur: strings, numbers, booleans and [undefined]. *)
Inductive JsValue : Type :=
| JUndefined
| JString (s : string)
| JNumber (n : Z)
| JBoolean (b : bool).

(** Truthiness, as [||], [!] and [if] see it. *)
Definition truthy (v : JsValue) : bool :=
  match v with
  | JUndefined => false
  | JString s => negb (bool_decide (s = ""))
  | JNumber n => negb (n =? 0)
  | JBoolean b => b
  end.

(** [a || b] *)
Definition js_or (a b : JsValue) : JsValue := if truthy a then a else b.

Definition of_string (o : option string) : JsValue :=
  match o with Some s => JString s | None => JUndefined end.

Definition of_number (o : option Z) : JsValue :=
  match o with Some n => JNumber n | None => JUndefined end.

Definition of_boolean (o : option bool) : JsValue :=
  match o with Some b => JBoolean b | None => JUndefined end.

(** How a synchronous function ends. *)
Inductive Completion (A : Type) : Type :=
| Returns (a : A)
| Throws (e : Exn).
Arguments Returns {A} a.
Arguments Throws {A} e.

Definition and_then {A B} (c : Completion A) (k : A -> Completion B) : Completion B :=
  match c with
  | Returns a => k a
  | Throws e => Throws e
  end.

(** [defaultConfig] *)
Definition defaultConfig (key : ConfigKey) : JsValue :=
  match key with
  | testTimeout => JNumber 120000
  | actionTimeout => JNumber 30000
  | navigationTimeout => JNumber 60000
  | testFilesPath => JString "./test-files"
  | screenshotsPath => JString "./screenshots"
  | downloadsPath => JString "./downloads"
  | headless => JBoolean true
  | slowMo => JNumber 0
  | reportPath => JString "./playwright-report"
  | tracePath => JString "./trace"
  | contentModulePath => JString "/content"
  | playerModulePath => JString "/players"
  | baseUrl | userEmail | userPassword => JUndefined
  end.

(** *** Strings

    A string is the UTF-8 text of the JavaScript string.  The case
    conversions below are those of the ASCII letters: the keys are ASCII,
    and no other character changes into one of the letters of "true". *)

Definition is_upper (c : ascii) : bool :=
  (65 <=? nat_of_ascii c)%nat && (nat_of_ascii c <=? 90)%nat.

Definition is_lower (c : ascii) : bool :=
  (97 <=? nat_of_ascii c)%nat && (nat_of_ascii c <=? 122)%nat.

Definition is_digit (c : ascii) : bool :=
  (48 <=? nat_of_ascii c)%nat && (nat_of_ascii c <=? 57)%nat.

(** [key.replace(/([A-Z])/g, '_$1')] *)
Fixpoint underscore_capitals (s : string) : string :=
  match s with
  | EmptyString => EmptyString
  | String c rest =>
      if is_upper c then String "_" (String c (underscore_capitals rest))
      else String c (underscore_capitals rest)
  end.

Fixpoint toUpperCase (s : string) : string :=
  match s with
  | EmptyString => EmptyString
  | String c rest =>
      String (if is_lower c then ascii_of_nat (nat_of_ascii c - 32) else c)
             (toUpperCase rest)
  end.

Fixpoint toLowerCase (s : string) : string :=
  match s with
  | EmptyString => EmptyString
  | String c rest =>
      String (if is_upper c then ascii_of_nat (nat_of_ascii c + 32) else c)
             (toLowerCase rest)
  end.

(** [key.replace(/([A-Z])/g, '_$1').toUpperCase()] *)
Definition env_key (key : ConfigKey) : string :=
  toUpperCase (underscore_capitals (key_name key)).

(** *** [parseInt(value, 10)] *)

(** The white space and line terminators of one byte. *)
Definition is_space1 (c : ascii) : bool :=
  let n := nat_of_ascii c in
  (9 <=? n)%nat && (n <=? 13)%nat || (n =? 32)%nat.

(** U+00A0. *)
Definition is_space2 (c1 c2 : ascii) : bool :=
  (nat_of_ascii c1 =? 194)%nat && (nat_of_ascii c2 =? 160)%nat.

(** U+1680, U+2000 to U+200A, U+2028, U+2029, U+202F, U+205F, U+3000 and
    U+FEFF. *)
Definition is_space3 (c1 c2 c3 : ascii) : bool :=
  let n1 := nat_of_ascii c1 in
  let n2 := nat_of_ascii c2 in
  let n3 := nat_of_ascii c3 in
  (n1 =? 225)%nat && (n2 =? 154)%nat && (n3 =? 128)%nat
  || (n1 =? 226)%nat && (n2 =? 128)%nat
     && ((128 <=? n3)%nat && (n3 <=? 138)%nat
         || (n3 =? 168)%nat || (n3 =? 169)%nat || (n3 =? 175)%nat)
  || (n1 =? 226)%nat && (n2 =? 129)%nat && (n3 =? 159)%nat
  || (n1 =? 227)%nat && (n2 =? 128)%nat && (n3 =? 128)%nat
  || (n1 =? 239)%nat && (n2 =? 187)%nat && (n3 =? 191)%nat.

(** The string without its leading white space. *)
Fixpoint trimStart (s : string) : string :=
  match s with
  | EmptyString => s
  | String c1 r1 =>
      if is_space1 c1 then trimStart r1
      else
        match r1 with
        | EmptyString => s
        | String c2 r2 =>
            if is_space2 c1 c2 then trimStart r2
            else
              match r2 with
              | EmptyString => s
              | String c3 r3 => if is_space3 c1 c2 c3 then trimStart r3 else s
              end
        end
  end.

(** The number the leading decimal digits of [s] spell, after [acc]. *)
Fixpoint digits_value (acc : N) (s : string) : N :=
  match s with
  | EmptyString => acc
  | String c rest =>
      if is_digit c then digits_value (acc * 10 + N.of_nat (nat_of_ascii c - 48)) rest
      else acc
  end.

Definition starts_with_digit (s : string) : bool :=
  match s with
  | EmptyString => false
  | String c _ => is_digit c
  end.

(** [parseInt(s, 10)]; [None] is NaN. *)
Definition parseInt10 (s : string) : option Z :=
  let trimmed := trimStart s in
  let '(sign, digits) :=
    match trimmed with
    | String "-" rest => (-1, rest)
    | String "+" rest => (1, rest)
    | _ => (1, trimmed)
    end in
  if starts_with_digit digits then Some (sign * Z.of_N (digits_value 0 digits))
  else None.

(** *** The getters *)

Definition getConfigValue (e : gmap string string) (key : ConfigKey)
    (defaultValue : option string) : Completion JsValue :=
  let envKey := env_key key in
  let value := js_or (js_or (of_string (e !! envKey)) (of_string defaultValue))
                     (defaultConfig key) in
  if negb (truthy value) && bool_decide (defaultValue = None) then
    Throws (Error ("Configuration value for " +:+ key_name key +:+ " is missing"))
  else Returns value.

Definition getNumericConfigValue (e : gmap string string) (key : ConfigKey)
    (defaultValue : option Z) : Completion JsValue :=
  let envKey := env_key key in
  let value := e !! envKey in
  if truthy (of_string value) then
    match parseInt10 (default "" value) with
    | None =>
        Throws (Error ("Invalid numeric value for " +:+ key_name key +:+ ": "
                       +:+ default "" value))
    | Some parsed => Returns (JNumber parsed)
    end
  else Returns (js_or (of_number defaultValue) (defaultConfig key)).

Definition getBooleanConfigValue (e : gmap string string) (key : ConfigKey)
    (defaultValue : option bool) : Completion JsValue :=
  let envKey := env_key key in
  match e !! envKey with
  | Some value => Returns (JBoolean (bool_decide (toLowerCase value = "true")))
  | None => Returns (js_or (of_boolean defaultValue) (defaultConfig key))
  end.

(** [Config], with each property as the value the getter returned. *)
Record Config : Type := mkConfig {
  cfg_baseUrl : JsValue;
  cfg_userEmail : JsValue;
  cfg_userPassword : JsValue;
  cfg_testTimeout : JsValue;
  cfg_actionTimeout : JsValue;
  cfg_navigationTimeout : JsValue;
  cfg_testFilesPath : JsValue;
  cfg_screenshotsPath : JsValue;
  cfg_downloadsPath : JsValue;
  cfg_headless : JsValue;
  cfg_slowMo : JsValue;
  cfg_reportPath : JsValue;
  cfg_tracePath : JsValue;
  cfg_contentModulePath : JsValue;
  cfg_playerModulePath : JsValue
}.

(** [export const config: Config = { baseUrl: getConfigValue('baseUrl'), ... }]:
    the properties are computed in the order written, and the first getter
    that throws ends the construction. *)
Definition config (e : gmap string string) : Completion Config :=
  and_then (getConfigValue e baseUrl None) (fun v1 =>
  and_then (getConfigValue e userEmail None) (fun v2 =>
  and_then (getConfigValue e userPassword None) (fun v3 =>
  and_then (getNumericConfigValue e testTimeout None) (fun v4 =>
  and_then (getNumericConfigValue e actionTimeout None) (fun v5 =>
  and_then (getNumericConfigValue e navigationTimeout None) (fun v6 =>
  and_then (getConfigValue e testFilesPath None) (fun v7 =>
  and_then (getConfigValue e screenshotsPath None) (fun v8 =>
  and_then (getConfigValue e downloadsPath None) (fun v9 =>
  and_then (getBooleanConfigValue e headless None) (fun v10 =>
  and_then (getNumericConfigValue e slowMo None) (fun v11 =>
  and_then (getConfigValue e reportPath None) (fun v12 =>
  and_then (getConfigValue e tracePath None) (fun v13 =>
  and_then (getConfigValue e contentModulePath None) (fun v14 =>
  and_then (getConfigValue e playerModulePath None) (fun v15 =>
  Returns (mkConfig v1 v2 v3 v4 v5 v6 v7 v8 v9 v10 v11 v12 v13 v14 v15)))))))))))))))).

(** The keys read with getNumericConfigValue. *)
Definition numeric_keys : list ConfigKey :=
  [testTimeout; actionTimeout; navigationTimeout; slowMo].

(** The variable of a numeric key is usable: unset, empty, or a text that
    [parseInt] makes a number of. *)
Definition numeric_ok (e : gmap string string) (key : ConfigKey) : Prop :=
  match e !! env_key key with
  | Some value => value = "" \/ parseInt10 value <> None
  | None => True
  end.

End EnvConfig.

(** ** src/utils/helpers.ts: ValidationHelper.isValidEmail

    Regular expressions look at a JavaScript string as its UTF-16 code
    units; a string is a list of them here. *)
Module ValidationHelper.

(** The regular expressions the pattern needs. *)
Inductive Regex : Type :=
| RNone                              (* matches nothing *)
| REmpty                             (* matches the empty string *)
| RClass (accepts : Z -> bool)       (* one code unit of a class *)
| RSeq (r1 r2 : Regex)               (* r1 r2 *)
| RAlt (r1 r2 : Regex)               (* r1 | r2 *)
| RStar (r : Regex).                 (* r* *)

(** [r+] *)
Definition RPlus (r : Regex) : Regex := RSeq r (RStar r).

(** Matching by derivatives. *)
Fixpoint nullable (r : Regex) : bool :=
  match r with
  | RNone => false
  | REmpty => true
  | RClass _ => false
  | RSeq r1 r2 => nullable r1 && nullable r2
  | RAlt r1 r2 => nullable r1 || nullable r2
  | RStar _ => true
  end.

Fixpoint derive (c : Z) (r : Regex) : Regex :=
  match r with
  | RNone => RNone
  | REmpty => RNone
  | RClass accepts => if accepts c then REmpty else RNone
  | RSeq r1 r2 =>
      if nullable r1 then RAlt (RSeq (derive c r1) r2) (derive c r2)
      else RSeq (derive c r1) r2
  | RAlt r1 r2 => RAlt (derive c r1) (derive c r2)
  | RStar r1 => RSeq (derive c r1) (RStar r1)
  end.

(** [/^r$/.test(s)] *)
Fixpoint matches (r : Regex) (s : list Z) : bool :=
  match s with
  | [] => nullable r
  | c :: rest => matches (derive c r) rest
  end.

(** [\s]: white space and line terminators. *)
Definition is_space (c : Z) : bool :=
  (9 <=? c) && (c <=? 13)
  || (c =? 32) || (c =? 160) || (c =? 5760)
  || (8192 <=? c) && (c <=? 8202)
  || (c =? 8232) || (c =? 8233) || (c =? 8239) || (c =? 8287)
  || (c =? 12288) || (c =? 65279).

(** [[^\s@]] *)
Definition plain (c : Z) : bool := negb (is_space c) && negb (c =? 64).

(** One given code unit. *)
Definition RChar (d : Z) : Regex := RClass (fun c => c =? d).

(** [/^[^\s@]+@[^\s@]+\.[^\s@]+$/] *)
Definition emailRegex : Regex :=
  RSeq (RPlus (RClass plain))
       (RSeq (RChar 64)
             (RSeq (RPlus (RClass plain))
                   (RSeq (RChar 46) (RPlus (RClass plain))))).

Definition isValidEmail (email : list Z) : bool := matches emailRegex email.

(** The strings a regular expression denotes. *)
Inductive lang : Regex -> list Z -> Prop :=
| lang_empty : lang REmpty []
| lang_class accepts c : accepts c = true -> lang (RClass accepts) [c]
| lang_seq r1 r2 s1 s2 : lang r1 s1 -> lang r2 s2 -> lang (RSeq r1 r2) (s1 ++ s2)
| lang_alt_l r1 r2 s : lang r1 s -> lang (RAlt r1 r2) s
| lang_alt_r r1 r2 s : lang r2 s -> lang (RAlt r1 r2) s
| lang_star_nil r : lang (RStar r) []
| lang_star_app r s1 s2 : lang r s1 -> lang (RStar r) s2 -> lang (RStar r) (s1 ++ s2).

(** The non-empty strings of plain code units. *)
Definition word (s : list Z) : Prop := s <> [] /\ Forall (fun c => plain c = true) s.

(** The code units of an ASCII text. *)
Definition code_units (s : string) : list Z :=
  map (fun c => Z.of_nat (nat_of_ascii c)) (list_ascii_of_string s).

End ValidationHelper.

(** * Properties *)

Import Props.

(** ** Requests and their traces *)
Section Requests.
Context {X : Type} `{Runtime X}.

Lemma call_run {T} (c : Call T) (w : World X) (r : Settled T) (x : X) :
  perform c (ext w) = (r, x) ->
  call c w = Some (r, after w [EvCall c] x).
Proof. intros E. unfold call. rewrite E. reflexivity. Qed.

Lemma after_after (w : World X) (evs1 evs2 : list Event) (x1 x2 : X) :
  after (after w evs1 x1) evs2 x2 = after w (evs1 ++ evs2) x2.
Proof. unfold after. simpl. rewrite <- app_assoc. reflexivity. Qed.

Lemma after_nil (w : World X) : after w [] (ext w) = w.
Proof. destruct w. unfold after. simpl. rewrite app_nil_r. reflexivity. Qed.

Lemma bind_run {A B} (m : M X A) (k : A -> M X B) (w w' : World X) (a : A) :
  m w = Some (Fulfilled a, w') -> bind m k w = k a w'.
Proof. intros E. unfold bind. rewrite E. reflexivity. Qed.

Lemma bind_rejected {A B} (m : M X A) (k : A -> M X B) (w w' : World X) (e : Exn) :
  m w = Some (Rejected e, w') -> bind m k w = Some (Rejected e, w').
Proof. intros E. unfold bind. rewrite E. reflexivity. Qed.

End Requests.

(** ** Base Interaction Layer *)
Module BasePageSpec.
Section WithRuntime.
Context {X : Type} `{Runtime X}.

(** The body shared by click, fill, hover and selectOption. *)
Lemma run_action_unfold (a : Action) (l : Locator) :
  run_action a l = bind (call (visible_wait l)) (fun _ => call (action_call a l)).
Proof. destruct a; reflexivity. Qed.

(** C1.  click, fill, hover and selectOption first wait for the element
    to be visible.  When that wait is rejected with [e] the operation is
    rejected with the same [e], having made the one wait request and
    nothing else (no retry, no action).  When it is fulfilled the action
    request follows it and its outcome is the operation's. *)
Theorem action_waits_then_acts (a : Action) (l : Locator) (w : World X)
    (r : Settled unit) (x : X) :
  perform (visible_wait l) (ext w) = (r, x) ->
  match r with
  | Rejected e =>
      run_action a l w = Some (Rejected e, after w [EvCall (visible_wait l)] x)
  | Fulfilled _ =>
      run_action a l w =
        Some (fst (perform (action_call a l) x),
              after w [EvCall (visible_wait l); EvCall (action_call a l)]
                    (snd (perform (action_call a l) x)))
  end.
Proof.
  intros E. rewrite run_action_unfold.
  pose proof (call_run _ _ _ _ E) as Hw.
  destruct r as [u | e].
  - rewrite (bind_run _ _ _ _ _ Hw).
    destruct (perform (action_call a l) x) as [r' x'] eqn:E'.
    rewrite (call_run (action_call a l) (after w [EvCall (visible_wait l)] x) r' x' E').
    rewrite after_after. reflexivity.
  - apply (bind_rejected _ _ _ _ _ Hw).
Qed.

(** C7.  isVisible never throws: it waits for the element to be visible
    with a timeout of 5000 ms, and is fulfilled with true when that wait
    is fulfilled and with false when the wait is rejected, whatever the
    error. *)
Theorem isVisible_never_throws (l : Locator) (w : World X) :
  BasePage.isVisible l w =
    Some (Fulfilled (match fst (perform (LWaitFor l Visible (Some 5000)) (ext w)) with
                     | Fulfilled _ => true
                     | Rejected _ => false
                     end),
          after w [EvCall (LWaitFor l Visible (Some 5000))]
                (snd (perform (LWaitFor l Visible (Some 5000)) (ext w)))).
Proof.
  unfold BasePage.isVisible, try_catch.
  destruct (perform (LWaitFor l Visible (Some 5000)) (ext w)) as [r x] eqn:E.
  pose proof (call_run _ _ _ _ E) as Hw.
  destruct r as [u | e].
  - rewrite (bind_run _ _ _ _ _ Hw). reflexivity.
  - rewrite (bind_rejected _ _ _ _ _ Hw). reflexivity.
Qed.

(** Emitting a dialog runs every listener, in registration order; a
    rejection inside a listener stops nothing. *)
Lemma emit_to_trace (listeners : list DialogListener) (d : Dialog) (w : World X) :
  exists x, BasePage.emit_to listeners d w =
    Some (Fulfilled tt, after w (map (fun l => EvCall (listener_call d l)) listeners) x).
Proof.
  revert w. induction listeners as [| l rest IH]; intros w.
  - exists (ext w). simpl. unfold ret. rewrite after_nil. reflexivity.
  - simpl.
    assert (Hl : exists x1, try_catch (BasePage.run_listener l d) (fun _ => ret tt) w
                   = Some (Fulfilled tt, after w [EvCall (listener_call d l)] x1)).
    { destruct (perform (listener_call d l) (ext w)) as [r x1] eqn:E.
      exists x1. unfold try_catch.
      replace (BasePage.run_listener l d) with (call (listener_call d l))
        by (destruct l; reflexivity).
      rewrite (call_run _ _ _ _ E). destruct r as [[] | e]; reflexivity. }
    destruct Hl as [x1 Hl]. rewrite (bind_run _ _ _ _ _ Hl).
    destruct (IH (after w [EvCall (listener_call d l)] x1)) as [x2 IH'].
    exists x2. rewrite IH'. rewrite after_after. reflexivity.
Qed.

(** C3, as the code has it.  acceptAlert and dismissAlert each add a
    listener to the page's dialog listeners and take none away: after
    registering [first] and then [second], both are registered after the
    ones the page already had, and every later dialog runs all of them,
    in registration order. *)
Theorem dialog_listeners_accumulate (first second : DialogListener) (d : Dialog)
    (w : World X) :
  exists w1 x,
    bind (register first) (fun _ => register second) w = Some (Fulfilled tt, w1)
    /\ dialog_listeners w1 = dialog_listeners w ++ [first; second]
    /\ trace w1 = trace w
    /\ BasePage.emit_dialog d w1 =
         Some (Fulfilled tt,
               after w1 (map (fun l => EvCall (listener_call d l))
                             (dialog_listeners w ++ [first; second])) x).
Proof.
  set (w1 := mkWorld (trace w) (dialog_listeners w ++ [first; second]) (env w) (ext w)).
  destruct (emit_to_trace (dialog_listeners w1) d w1) as [x Hx].
  exists w1, x. split; [| split; [| split]].
  - unfold w1.
    destruct first, second;
      cbv [bind register BasePage.acceptAlert BasePage.dismissAlert
           BasePage.page_on_dialog trace dialog_listeners env ext];
      rewrite <- app_assoc; reflexivity.
  - reflexivity.
  - reflexivity.
  - unfold BasePage.emit_dialog. exact Hx.
Qed.

End WithRuntime.
End BasePageSpec.

(** ** Polling with backoff *)
Module WaitHelperSpec.

(** *** Traces of failed rounds *)





Section WithRuntime.
Context {X : Type} `{Runtime X}.
Variables (condition : Callback X bool) (maxAttempts baseDelay : Z).





End WithRuntime.
End WaitHelperSpec.

(** ** Content page *)
Module ContentPageSpec.
Section WithRuntime.
Context {X : Type} `{Runtime X}.

(** *** The all-items-checked query *)

(** The page holds [n] item checkboxes whose states are [chk], and
    looking at them changes nothing. *)
Section Checkboxes.
Variables (x : X) (n : Z) (chk : Z -> bool).
Hypothesis count_stable : perform (LCount item_checkboxes) x = (Fulfilled n, x).
Hypothesis checked_stable :
  forall i, 0 <= i < n ->
    perform (LIsChecked (LocNth item_checkboxes i)) x = (Fulfilled (chk i), x).

Lemma areAllItemsChecked_loop_spec (fuel : nat) :
  forall (i : Z) (w : World X),
    ext w = x -> 0 <= i -> (Z.to_nat (n - i) < fuel)%nat ->
    exists (b : bool) (events : list Event),
      ContentPage.areAllItemsChecked_loop fuel item_checkboxes n i w
        = Some (Fulfilled b, after w events x)
      /\ (b = true <-> forall j, i <= j < n -> chk j = true).
Proof.
  induction fuel as [| fuel IH]; intros i w Hx Hi Hfuel; [lia |].
  simpl. destruct (Z.ltb_spec i n) as [Hlt | Hge].
  - assert (Hc : call (LIsChecked (LocNth item_checkboxes i)) w
                 = Some (Fulfilled (chk i),
                         after w [EvCall (LIsChecked (LocNth item_checkboxes i))] x)).
    { apply call_run. rewrite Hx. apply checked_stable. lia. }
    rewrite (bind_run _ _ _ _ _ Hc).
    destruct (chk i) eqn:Echk; simpl.
    + destruct (IH (i + 1) (after w [EvCall (LIsChecked (LocNth item_checkboxes i))] x))
        as (b & events & Hrun & Hb); [reflexivity | lia | lia |].
      exists b, ([EvCall (LIsChecked (LocNth item_checkboxes i))] ++ events). split.
      * rewrite Hrun, after_after. reflexivity.
      * rewrite Hb. split; intros Hall j Hj.
        -- destruct (Z.eq_dec j i) as [-> | Hne]; [exact Echk | apply Hall; lia].
        -- apply Hall. lia.
    + exists false, [EvCall (LIsChecked (LocNth item_checkboxes i))]. split.
      * reflexivity.
      * split; [discriminate |]. intros Hall.
        rewrite (Hall i) in Echk by lia. discriminate.
  - exists true, []. split.
    + unfold ret. rewrite <- Hx, after_nil. reflexivity.
    + split; [| reflexivity]. intros _ j Hj. lia.
Qed.

Lemma areAllItemsChecked_spec (w : World X) :
  ext w = x -> 0 <= n ->
  exists (b : bool) (events : list Event),
    ContentPage.areAllItemsChecked w = Some (Fulfilled b, after w events x)
    /\ (b = true <-> 0 < n /\ forall i, 0 <= i < n -> chk i = true).
Proof.
  intros Hx Hn. unfold ContentPage.areAllItemsChecked.
  fold item_checkboxes.
  assert (Hc : call (LCount item_checkboxes) w
               = Some (Fulfilled n, after w [EvCall (LCount item_checkboxes)] x)).
  { apply call_run. rewrite Hx. exact count_stable. }
  rewrite (bind_run _ _ _ _ _ Hc).
  destruct (Z.eqb_spec n 0) as [-> | Hne].
  - exists false, [EvCall (LCount item_checkboxes)]. split; [reflexivity |].
    split; [discriminate | intros [Hpos _]; lia].
  - destruct (areAllItemsChecked_loop_spec (S (Z.to_nat n)) 0
                (after w [EvCall (LCount item_checkboxes)] x))
      as (b & events & Hrun & Hb); [reflexivity | lia | lia |].
    exists b, ([EvCall (LCount item_checkboxes)] ++ events). split.
    + rewrite Hrun, after_after. reflexivity.
    + rewrite Hb. split; [intros Hall; split; [lia | exact Hall] | intros [_ Hall]; exact Hall].
Qed.

End Checkboxes.

(** C9.  On a page that holds [n] item checkboxes with the states [chk]
    (and that looking at does not change), areAllItemsChecked returns
    true exactly when there is at least one checkbox and every checkbox
    reports checked; with no checkbox at all it returns false. *)
Theorem areAllItemsChecked_iff (w : World X) (n : Z) (chk : Z -> bool) :
  0 <= n ->
  perform (LCount item_checkboxes) (ext w) = (Fulfilled n, ext w) ->
  (forall i, 0 <= i < n ->
     perform (LIsChecked (LocNth item_checkboxes i)) (ext w) = (Fulfilled (chk i), ext w)) ->
  exists (b : bool) (events : list Event),
    ContentPage.areAllItemsChecked w = Some (Fulfilled b, after w events (ext w))
    /\ (b = true <-> 0 < n /\ forall i, 0 <= i < n -> chk i = true)
    /\ (n = 0 -> b = false).
Proof.
  intros Hn Hcount Hchk.
  destruct (areAllItemsChecked_spec (ext w) n chk Hcount Hchk w eq_refl Hn)
    as (b & events & Hrun & Hb).
  exists b, events. split; [exact Hrun | split; [exact Hb |]].
  intros ->. destruct b; [| reflexivity].
  destruct (proj1 Hb eq_refl) as [Hpos _]. lia.
Qed.

(** *** The active-view-mode query *)

(** When the attribute reads succeed and change nothing, the scan returns
    the first control that reads "true". *)
Lemma getActiveViewMode_scan_stable (x : X) (attribute : Locator -> option string)
    (options : list (Locator * ContentPage.ViewMode)) :
  (forall l, In l (map fst options) ->
     perform (LGetAttribute l "aria-selected") x = (Fulfilled (attribute l), x)) ->
  forall w : World X,
    ext w = x ->
    exists events : list Event,
      ContentPage.getActiveViewMode_scan options w
        = Some (Fulfilled (first_selected attribute options), after w events x).
Proof.
  induction options as [| [l v] rest IH]; intros Hread w Hx.
  - exists []. simpl. unfold ret. rewrite <- Hx, after_nil. reflexivity.
  - simpl.
    assert (Hc : call (LGetAttribute l "aria-selected") w
                 = Some (Fulfilled (attribute l),
                         after w [EvCall (LGetAttribute l "aria-selected")] x)).
    { apply call_run. rewrite Hx. apply Hread. left. reflexivity. }
    rewrite (bind_run _ _ _ _ _ Hc).
    destruct (decide (attribute l = Some "true")) as [Hsel | Hsel].
    + exists [EvCall (LGetAttribute l "aria-selected")]. reflexivity.
    + destruct (IH (fun l' Hl' => Hread l' (or_intror Hl'))
                   (after w [EvCall (LGetAttribute l "aria-selected")] x) eq_refl)
        as [events Hrun].
      exists ([EvCall (LGetAttribute l "aria-selected")] ++ events).
      rewrite Hrun, after_after. reflexivity.
Qed.

(** The scan always ends, and throws nothing of its own: an error it is
    rejected with is the error of one of its attribute reads. *)
Lemma getActiveViewMode_scan_rejection (options : list (Locator * ContentPage.ViewMode)) :
  forall w : World X,
    exists (r : Settled ContentPage.ViewMode) (w' : World X),
      ContentPage.getActiveViewMode_scan options w = Some (r, w')
      /\ forall e, r = Rejected e ->
           exists (l : Locator) (x : X),
             In l (map fst options)
             /\ fst (perform (LGetAttribute l "aria-selected") x) = Rejected e.
Proof.
  induction options as [| [l v] rest IH]; intros w.
  - exists (Fulfilled ContentPage.ViewUnknown), w. split; [reflexivity | discriminate].
  - simpl.
    destruct (perform (LGetAttribute l "aria-selected") (ext w)) as [r x1] eqn:E.
    pose proof (call_run _ _ _ _ E) as Hc.
    destruct r as [sel | e'].
    + rewrite (bind_run _ _ _ _ _ Hc).
      destruct (decide (sel = Some "true")).
      * eexists _, _. split; [reflexivity | discriminate].
      * destruct (IH (after w [EvCall (LGetAttribute l "aria-selected")] x1))
          as (r & w' & Hrun & Hrej).
        exists r, w'. split; [exact Hrun |].
        intros e He. destruct (Hrej e He) as (l' & x & Hin & Hp).
        exists l', x. split; [right; exact Hin | exact Hp].
    + rewrite (bind_rejected _ _ _ _ _ Hc).
      eexists _, _. split; [reflexivity |].
      intros e He. injection He as <-.
      exists l, (ext w). split; [left; reflexivity | rewrite E; reflexivity].
Qed.

Lemma first_selected_unknown (attribute : Locator -> option string) :
  first_selected attribute view_options = ContentPage.ViewUnknown
  <-> forall l, In l (map fst view_options) -> attribute l <> Some "true".
Proof.
  unfold view_options. simpl. split.
  - intros Hfirst l Hl.
    repeat match goal with
           | H : context [decide ?P] |- _ => destruct (decide P)
           end; try discriminate.
    destruct Hl as [<- | [<- | [<- | []]]]; assumption.
  - intros Hnone.
    repeat match goal with
           | |- context [decide (attribute ?l = _)] =>
               destruct (decide (attribute l = Some "true")) as [Hsel | _];
               [exfalso; revert Hsel; apply Hnone; tauto |]
           end.
    reflexivity.
Qed.

(** C8, as the code has it.  getActiveViewMode reads the aria-selected
    attribute of the grid, list and card controls, in that order.  When
    the reads succeed it returns the mode of the first control that reads
    "true", and the sentinel 'unknown' exactly when none does.  It throws
    nothing of its own, but it catches nothing either: when a read is
    rejected, the query is rejected with that error. *)
Theorem getActiveViewMode_scan_order (w : World X) :
  (forall attribute : Locator -> option string,
     (forall l, In l (map fst view_options) ->
        perform (LGetAttribute l "aria-selected") (ext w) = (Fulfilled (attribute l), ext w)) ->
     (exists events : list Event,
        ContentPage.getActiveViewMode w
          = Some (Fulfilled (first_selected attribute view_options), after w events (ext w)))
     /\ (first_selected attribute view_options = ContentPage.ViewUnknown
         <-> forall l, In l (map fst view_options) -> attribute l <> Some "true"))
  /\ (exists (r : Settled ContentPage.ViewMode) (w' : World X),
        ContentPage.getActiveViewMode w = Some (r, w')
        /\ forall e, r = Rejected e ->
             exists (l : Locator) (x : X),
               In l (map fst view_options)
               /\ fst (perform (LGetAttribute l "aria-selected") x) = Rejected e).
Proof.
  split.
  - intros attribute Hread. split.
    + apply (getActiveViewMode_scan_stable (ext w) attribute view_options Hread w eq_refl).
    + apply first_selected_unknown.
  - apply (getActiveViewMode_scan_rejection view_options w).
Qed.

End WithRuntime.
End ContentPageSpec.

(** ** Test data *)
Module TestDataHelperSpec.
Section WithRuntime.
Context {X : Type} `{Runtime X}.

(** C5, as the code has it.  loadTestData reads the file and parses its
    text as JSON.  When the read or the parse fails the load fails with
    an error that names the file and the cause.  Whatever document the
    parse yields is returned as it is: nothing compares it with the
    ContentData shape. *)
Theorem loadTestData_returns_parsed (filePath : string) (w : World X) :
  TestDataHelper.loadTestData filePath w =
    match perform (FsReadFileSync filePath "utf8") (ext w) with
    | (Rejected cause, x1) =>
        Some (Rejected (load_error filePath cause),
              after w [EvCall (FsReadFileSync filePath "utf8")] x1)
    | (Fulfilled data, x1) =>
        match perform (JsonParse data) x1 with
        | (Rejected cause, x2) =>
            Some (Rejected (load_error filePath cause),
                  after w [EvCall (FsReadFileSync filePath "utf8");
                           EvCall (JsonParse data)] x2)
        | (Fulfilled document, x2) =>
            Some (Fulfilled document,
                  after w [EvCall (FsReadFileSync filePath "utf8");
                           EvCall (JsonParse data)] x2)
        end
    end.
Proof.
  unfold TestDataHelper.loadTestData, try_catch.
  destruct (perform (FsReadFileSync filePath "utf8") (ext w)) as [r x1] eqn:Eread.
  pose proof (call_run _ _ _ _ Eread) as Hread.
  destruct r as [data | cause].
  - rewrite (bind_run _ _ _ _ _ Hread).
    destruct (perform (JsonParse data) x1) as [r x2] eqn:Eparse.
    rewrite (call_run (JsonParse data)
               (after w [EvCall (FsReadFileSync filePath "utf8")] x1) r x2 Eparse).
    rewrite after_after. destruct r; reflexivity.
  - rewrite (bind_rejected _ _ _ _ _ Hread). reflexivity.
Qed.

End WithRuntime.
End TestDataHelperSpec.

(** ** Bootstrap *)
Module GlobalSetupSpec.
Section WithRuntime.
Context {X : Type} `{Runtime X}.

(** Loading the .env file always succeeds, and is one request. *)
Lemma dotenv_config_run (w : World X) :
  exists w1 : World X,
    ProcessEnv.dotenv_config w = Some (Fulfilled tt, w1)
    /\ trace w1 = trace w ++ [EvCall DotenvConfig].
Proof.
  unfold ProcessEnv.dotenv_config.
  destruct (perform DotenvConfig (ext w)) as [r x1] eqn:E.
  rewrite (call_run _ _ _ _ E).
  destruct r as [parsed | e]; eexists; split; reflexivity.
Qed.

(** A required variable that is absent is among the missing ones. *)
Lemma absent_is_missing (e : gmap string string) (key : string) :
  In key required -> e !! key = None -> In key (missing e).
Proof.
  intros Hreq Hnone. unfold missing. apply filter_In. split; [exact Hreq |].
  unfold ProcessEnv.unset. rewrite Hnone. reflexivity.
Qed.

Lemma missing_nonempty (e : gmap string string) (key : string) :
  In key (missing e) -> bool_decide (0 < length (missing e))%nat = true.
Proof.
  intros Hin. apply bool_decide_eq_true_2.
  destruct (missing e); [destruct Hin | simpl; lia].
Qed.

(** C4.  Let [w1] be the process once the .env file is loaded.  If one of
    BASE_URL, USER_EMAIL, USER_PASSWORD is absent there, globalSetup
    throws at once, before it creates a directory or starts a browser
    (the one request made is the loading of the .env file), and the
    error's message lists the missing variables, the absent one among
    them.  validateEnvironment throws in the same case, listing the same
    names. *)
Theorem globalSetup_fails_fast (w w1 : World X) (key : string) :
  ProcessEnv.dotenv_config w = Some (Fulfilled tt, w1) ->
  In key required ->
  env w1 !! key = None ->
  GlobalSetup.globalSetup w = Some (Rejected (setup_error (missing (env w1))), w1)
  /\ trace w1 = trace w ++ [EvCall DotenvConfig]
  /\ In key (missing (env w1))
  /\ Env.validateEnvironment w1
       = Some (Rejected (validation_error (missing (env w1))), w1).
Proof.
  intros Hdot Hreq Habsent.
  pose proof (absent_is_missing _ _ Hreq Habsent) as Hin.
  pose proof (missing_nonempty _ _ Hin) as Hlen.
  split; [| split; [| split]].
  - unfold GlobalSetup.globalSetup.
    rewrite (bind_run _ _ _ _ _ Hdot).
    unfold bind, ProcessEnv.read. fold required. fold (missing (env w1)).
    rewrite Hlen. reflexivity.
  - destruct (dotenv_config_run w) as (w1' & Hrun & Htrace).
    rewrite Hrun in Hdot. injection Hdot as <-. exact Htrace.
  - exact Hin.
  - unfold Env.validateEnvironment, bind, ProcessEnv.read.
    fold required. fold (missing (env w1)). rewrite Hlen. reflexivity.
Qed.

End WithRuntime.
End GlobalSetupSpec.

(** ** Concrete runs *)
Module Runs.
Import Fixture Scenario.

(** On a blank page the add button never becomes visible: click is
    rejected with the driver's timeout error after the one wait. *)
Lemma action_waits_then_acts_witness :
  perform (visible_wait ContentPage.addButton) (ext blank)
    = (Rejected (TimeoutError "locator.waitFor: Timeout exceeded."), ext blank)
  /\ BasePage.click ContentPage.addButton blank
     = Some (Rejected (TimeoutError "locator.waitFor: Timeout exceeded."),
             after blank [EvCall (visible_wait ContentPage.addButton)] (ext blank)).
Proof.
  split; [reflexivity |].
  exact (BasePageSpec.action_waits_then_acts DoClick ContentPage.addButton blank
           _ _ eq_refl).
Defined.



(** C3 as stated fails.  After acceptAlert and then dismissAlert on a
    page with no listeners, both listeners are registered, and a dialog
    gets [accept] called on it first and then [dismiss]: the last
    registration has not replaced the first. *)
Lemma dialog_policy_counterexample :
  exists w1 w2 : World Stage,
    bind BasePage.acceptAlert (fun _ => BasePage.dismissAlert) blank
      = Some (Fulfilled tt, w1)
    /\ dialog_listeners w1 = [AcceptListener; DismissListener]
    /\ dialog_listeners w1 <> [DismissListener]
    /\ BasePage.emit_dialog 0%nat w1 = Some (Fulfilled tt, w2)
    /\ applied (trace w2) = [AcceptListener; DismissListener]
    /\ applied (trace w2) <> [DismissListener].
Proof.
  eexists _, _. split; [reflexivity |].
  split; [reflexivity |]. split; [discriminate |].
  split; [reflexivity |]. split; [reflexivity | discriminate].
Qed.

(** A process without USER_EMAIL: the bootstrap throws, and names it. *)
Lemma globalSetup_fails_fast_witness :
  ProcessEnv.dotenv_config no_credentials
    = Some (Fulfilled tt, after no_credentials [EvCall DotenvConfig] empty_stage)
  /\ In "USER_EMAIL" required
  /\ env (after no_credentials [EvCall DotenvConfig] empty_stage) !! "USER_EMAIL" = None
  /\ GlobalSetup.globalSetup no_credentials
     = Some (Rejected (setup_error ["USER_EMAIL"; "USER_PASSWORD"]),
             after no_credentials [EvCall DotenvConfig] empty_stage).
Proof.
  assert (Hdot : ProcessEnv.dotenv_config no_credentials
                 = Some (Fulfilled tt, after no_credentials [EvCall DotenvConfig] empty_stage))
    by reflexivity.
  assert (Hreq : In "USER_EMAIL" required) by (simpl; tauto).
  assert (Habsent : env (after no_credentials [EvCall DotenvConfig] empty_stage)
                      !! "USER_EMAIL" = None)
    by (vm_compute; reflexivity).
  split; [exact Hdot | split; [exact Hreq | split; [exact Habsent |]]].
  exact (proj1 (GlobalSetupSpec.globalSetup_fails_fast no_credentials _ "USER_EMAIL"
                  Hdot Hreq Habsent)).
Defined.

(** C5 as stated fails.  A test-data file that holds the empty JSON
    object does not have the ContentData shape, and loadTestData returns
    it all the same. *)
Lemma loadTestData_shape_counterexample :
  TestDataHelper.loadTestData "src/data/contentData.json" empty_object_file
    = Some (Fulfilled (JObj []),
            after empty_object_file
                  [EvCall (FsReadFileSync "src/data/contentData.json" "utf8");
                   EvCall (JsonParse "{}")]
                  (ext empty_object_file))
  /\ ContentData.is_ContentData (JObj []) = false.
Proof. split; reflexivity. Qed.

(** C6 at three files.  With every indicator visible, uploadMultipleFiles
    waits for the indicators of the first and the second file and returns
    without having waited for the third. *)
Theorem uploadMultipleFiles_three_files :
  exists w' : World Stage,
    ContentPage.uploadMultipleFiles ["a.jpg"; "b.jpg"; "c.jpg"] three_uploaded
      = Some (Fulfilled tt, w')
    /\ awaited_visible (trace w')
       = [ContentPage.addButton; ContentPage.uploadFilesButton;
          file_success 1; file_success 2]
    /\ ~ In (file_success 3) (awaited_visible (trace w')).
Proof.
  eexists. split; [reflexivity |]. split; [reflexivity |].
  vm_compute. intros Hin.
  repeat (destruct Hin as [Hin | Hin]; [discriminate Hin |]). exact Hin.
Qed.

(** C6 at one file.  The second wait is for an indicator that a
    single-file upload never shows: the flow times out although the file
    was uploaded with success. *)
Lemma uploadMultipleFiles_one_file :
  exists w' : World Stage,
    ContentPage.uploadMultipleFiles ["a.jpg"] one_uploaded
      = Some (Rejected (TimeoutError "locator.waitFor: Timeout exceeded."), w')
    /\ awaited_visible (trace w')
       = [ContentPage.addButton; ContentPage.uploadFilesButton;
          file_success 1; file_success 2].
Proof. eexists. split; reflexivity. Qed.

(** uploadByDragAndDrop has the same two waits. *)
Lemma uploadByDragAndDrop_three_files :
  exists w' : World Stage,
    ContentPage.uploadByDragAndDrop ["a.jpg"; "b.jpg"; "c.jpg"] three_uploaded
      = Some (Fulfilled tt, w')
    /\ awaited_visible (trace w') = [file_success 1; file_success 2].
Proof. eexists. split; reflexivity. Qed.

(** C8 as stated fails.  With the view-mode menu closed its options are
    not in the document, the read of the first attribute times out, and
    getActiveViewMode throws that timeout error. *)
Lemma getActiveViewMode_throws_counterexample :
  ContentPage.getActiveViewMode closed_menu
    = Some (Rejected (TimeoutError "locator.getAttribute: Timeout exceeded."),
            after closed_menu
                  [EvCall (LGetAttribute ContentPage.gridViewButton "aria-selected")]
                  (ext closed_menu)).
Proof. reflexivity. Qed.

(** With the list view active the query returns 'list'. *)
Lemma getActiveViewMode_scan_order_witness :
  (forall l, In l (map fst view_options) ->
     perform (LGetAttribute l "aria-selected") (ext list_view)
       = (Fulfilled (list_view_attribute l), ext list_view))
  /\ exists events : list Event,
       ContentPage.getActiveViewMode list_view
         = Some (Fulfilled ContentPage.ViewList, after list_view events (ext list_view)).
Proof.
  assert (Hread : forall l, In l (map fst view_options) ->
            perform (LGetAttribute l "aria-selected") (ext list_view)
              = (Fulfilled (list_view_attribute l), ext list_view)).
  { intros l [<- | [<- | [<- | []]]]; reflexivity. }
  split; [exact Hread |].
  exact (proj1 (proj1 (ContentPageSpec.getActiveViewMode_scan_order list_view)
                      list_view_attribute Hread)).
Defined.

(** Two items, both checked: the query returns true. *)
Lemma areAllItemsChecked_iff_witness :
  0 <= 2
  /\ perform (LCount item_checkboxes) (ext two_checked) = (Fulfilled 2, ext two_checked)
  /\ (forall i, 0 <= i < 2 ->
        perform (LIsChecked (LocNth item_checkboxes i)) (ext two_checked)
          = (Fulfilled (two_checked_state i), ext two_checked))
  /\ exists (b : bool) (events : list Event),
       ContentPage.areAllItemsChecked two_checked
         = Some (Fulfilled b, after two_checked events (ext two_checked))
       /\ (b = true <-> 0 < 2 /\ forall i, 0 <= i < 2 -> two_checked_state i = true)
       /\ (2 = 0 -> b = false).
Proof.
  assert (Hn : 0 <= 2) by lia.
  assert (Hcount : perform (LCount item_checkboxes) (ext two_checked)
                   = (Fulfilled 2, ext two_checked)) by reflexivity.
  assert (Hchk : forall i, 0 <= i < 2 ->
            perform (LIsChecked (LocNth item_checkboxes i)) (ext two_checked)
              = (Fulfilled (two_checked_state i), ext two_checked))
    by (intros i _; reflexivity).
  split; [exact Hn | split; [exact Hcount | split; [exact Hchk |]]].
  exact (ContentPageSpec.areAllItemsChecked_iff two_checked 2 two_checked_state
           Hn Hcount Hchk).
Defined.


End Runs.

(** * Further properties *)

Import Observe.

(** ** Composing runs *)
Module FlowLogic.
Section WithRuntime.
Context {X : Type} `{Runtime X}.

Lemma runs_impl {A} (m : M X A) (Q Q' : Settled A -> list Event -> Prop) :
  runs m Q -> (forall r events, Q r events -> Q' r events) -> runs m Q'.
Proof.
  intros Hm HQ w. destruct (Hm w) as (r & events & x & Hrun & Hq).
  exists r, events, x. split; [exact Hrun | apply HQ; exact Hq].
Qed.

Lemma runs_ret {A} (a : A) :
  runs (ret (X := X) a) (fun r events => r = Fulfilled a /\ events = []).
Proof.
  intros w. exists (Fulfilled a), [], (ext w).
  rewrite after_nil. split; [reflexivity | split; reflexivity].
Qed.

Lemma runs_throw {A} (e : Exn) :
  runs (throw (X := X) (A := A) e) (fun r events => r = Rejected e /\ events = []).
Proof.
  intros w. exists (Rejected e), [], (ext w).
  rewrite after_nil. split; [reflexivity | split; reflexivity].
Qed.

Lemma runs_call {T} (c : Call T) :
  runs (call c)
       (fun r events => events = [EvCall c] /\ exists x0 x1 : X, perform c x0 = (r, x1)).
Proof.
  intros w. destruct (perform c (ext w)) as [r x1] eqn:E.
  exists r, [EvCall c], x1.
  split; [apply call_run; exact E | split; [reflexivity | eauto]].
Qed.

Lemma runs_bind {A B} (m : M X A) (k : A -> M X B)
    (Q1 : Settled A -> list Event -> Prop) (Q2 : A -> Settled B -> list Event -> Prop) :
  runs m Q1 -> (forall a, runs (k a) (Q2 a)) ->
  runs (bind m k)
       (fun r events =>
          (exists e, r = Rejected e /\ Q1 (Rejected e) events)
          \/ (exists a events1 events2,
                events = events1 ++ events2
                /\ Q1 (Fulfilled a) events1 /\ Q2 a r events2)).
Proof.
  intros Hm Hk w. destruct (Hm w) as (r1 & events1 & x1 & Hrun & Hq).
  destruct r1 as [a | e].
  - destruct (Hk a (after w events1 x1)) as (r2 & events2 & x2 & Hrun2 & Hq2).
    exists r2, (events1 ++ events2), x2. split.
    + rewrite (bind_run _ _ _ _ _ Hrun), Hrun2, after_after. reflexivity.
    + right. exists a, events1, events2. auto.
  - exists (Rejected e), events1, x1.
    split; [apply bind_rejected; exact Hrun | left; eauto].
Qed.

Lemma runs_try_catch {A} (body : M X A) (handler : Exn -> M X A)
    (Q1 : Settled A -> list Event -> Prop) (Q2 : Exn -> Settled A -> list Event -> Prop) :
  runs body Q1 -> (forall e, runs (handler e) (Q2 e)) ->
  runs (try_catch body handler)
       (fun r events =>
          (exists a, r = Fulfilled a /\ Q1 (Fulfilled a) events)
          \/ (exists e events1 events2,
                events = events1 ++ events2
                /\ Q1 (Rejected e) events1 /\ Q2 e r events2)).
Proof.
  intros Hb Hh w. destruct (Hb w) as (r1 & events1 & x1 & Hrun & Hq).
  unfold try_catch. rewrite Hrun. destruct r1 as [a | e].
  - exists (Fulfilled a), events1, x1. split; [reflexivity | left; eauto].
  - destruct (Hh e (after w events1 x1)) as (r2 & events2 & x2 & Hrun2 & Hq2).
    exists r2, (events1 ++ events2), x2. split.
    + rewrite Hrun2, after_after. reflexivity.
    + right. exists e, events1, events2. auto.
Qed.

Lemma runs_try_finally {A} (body : M X A) (cleanup : M X unit)
    (Q1 : Settled A -> list Event -> Prop) (Q2 : Settled unit -> list Event -> Prop) :
  runs body Q1 -> runs cleanup Q2 ->
  runs (try_finally body cleanup)
       (fun r events =>
          exists r1 r2 events1 events2,
            events = events1 ++ events2
            /\ Q1 r1 events1 /\ Q2 r2 events2
            /\ r = match r2 with
                   | Fulfilled _ => r1
                   | Rejected e => Rejected e
                   end).
Proof.
  intros Hb Hc w. destruct (Hb w) as (r1 & events1 & x1 & Hrun & Hq).
  destruct (Hc (after w events1 x1)) as (r2 & events2 & x2 & Hrun2 & Hq2).
  exists (match r2 with Fulfilled _ => r1 | Rejected e => Rejected e end),
         (events1 ++ events2), x2.
  split.
  - unfold try_finally. rewrite Hrun, Hrun2, after_after. destruct r2; reflexivity.
  - exists r1, r2, events1, events2. auto.
Qed.

(** *** Scripts: requests made one after the other *)

Lemma requested_app (s1 s2 : list (Call unit)) :
  requested (s1 ++ s2) = requested s1 ++ requested s2.
Proof. unfold requested. apply map_app. Qed.

Lemma script_call (c : Call unit) : runs (call c) (script_outcome [c]).
Proof.
  apply (runs_impl _ _ _ (runs_call c)).
  intros r events (-> & x0 & x1 & Hp). exists 1%nat. split; [reflexivity |].
  destruct r as [[] | e].
  - split; [reflexivity |]. constructor; [exists x0, x1; exact Hp | constructor].
  - exists c, x0, x1. repeat split; [lia | exact Hp | constructor].
Qed.

Lemma script_seq (m1 m2 : M X unit) (s1 s2 : list (Call unit)) :
  runs m1 (script_outcome s1) -> runs m2 (script_outcome s2) ->
  runs (bind m1 (fun _ => m2)) (script_outcome (s1 ++ s2)).
Proof.
  intros H1 H2.
  apply (runs_impl _ _ _ (runs_bind m1 (fun _ => m2) _ (fun _ => _) H1 (fun _ => H2))).
  intros r events [(e & -> & n1 & -> & c & x0 & x1 & Hc & Hn & Hp & Hok)
                  | (a & ev1 & ev2 & -> & (n1 & -> & -> & Hok1) & n2 & -> & Hr)].
  - pose proof (lookup_lt_Some _ _ _ Hc) as Hlt.
    exists n1. split.
    + rewrite take_app_le by lia. reflexivity.
    + exists c, x0, x1. repeat split; try assumption.
      * apply lookup_app_l_Some. exact Hc.
      * rewrite take_app_le by lia. exact Hok.
  - exists (length s1 + n2)%nat. split.
    + rewrite take_app_add, requested_app, firstn_all. reflexivity.
    + destruct r as [[] | e].
      * destruct Hr as [-> Hok2]. split; [rewrite length_app; reflexivity |].
        apply Forall_app. split; assumption.
      * destruct Hr as (c & x0 & x1 & Hc & Hn & Hp & Hok2).
        exists c, x0, x1. repeat split; try assumption; try lia.
        -- rewrite lookup_app_r by lia.
           replace (pred (length s1 + n2) - length s1)%nat with (pred n2) by lia.
           exact Hc.
        -- replace (pred (length s1 + n2)) with (length s1 + pred n2)%nat by lia.
           rewrite take_app_add. apply Forall_app. split; assumption.
Qed.

Lemma script_click (l : Locator) :
  runs (BasePage.click l) (script_outcome (click_requests l)).
Proof. apply (script_seq _ _ [_] [_]); apply script_call. Qed.

Lemma script_fill (l : Locator) (value : string) :
  runs (BasePage.fill l value)
       (script_outcome [LWaitFor l Visible None; LFill l value]).
Proof. apply (script_seq _ _ [_] [_]); apply script_call. Qed.

End WithRuntime.
End FlowLogic.

(** ** Content page flows *)
Module ContentFlowsSpec.
Section WithRuntime.
Context {X : Type} `{Runtime X}.

Create HintDb flows.
#[local] Hint Resolve FlowLogic.script_call FlowLogic.script_click FlowLogic.script_fill
  : flows.

(** createFolder makes its nine requests in program order (add button,
    folder option and name field each awaited visible and then used, the
    confirm button awaited and clicked, the dialog awaited hidden) and
    stops at the first that is rejected, passing that error on: it is
    fulfilled only when the wait for the dialog to close was. *)
Theorem createFolder_fail_fast (folderName : string) (w : World X) :
  exists (r : Settled unit) (events : list Event) (x : X),
    ContentFlows.createFolder folderName w = Some (r, after w events x)
    /\ script_outcome (createFolder_requests folderName) r events.
Proof.
  revert w. change (runs (ContentFlows.createFolder folderName)
                         (script_outcome (createFolder_requests folderName))).
  unfold ContentFlows.createFolder, ContentFlows.enterFolderName, BasePage.waitForHidden.
  apply (FlowLogic.script_seq _ _ (click_requests _ ++ click_requests _ ++ [_; _])
           (click_requests _ ++ [_])).
  - apply FlowLogic.script_seq; [auto with flows |].
    apply FlowLogic.script_seq; auto with flows.
  - apply FlowLogic.script_seq; auto with flows.
Qed.

(** deleteSelectedContent clicks the delete button and the confirm button
    (each awaited visible first), then waits for the dialog and then for
    the loading spinner to be hidden; it stops at the first request that is
    rejected and passes that error on. *)
Theorem deleteSelectedContent_fail_fast (w : World X) :
  exists (r : Settled unit) (events : list Event) (x : X),
    ContentFlows.deleteSelectedContent w = Some (r, after w events x)
    /\ script_outcome deleteSelectedContent_requests r events.
Proof.
  revert w. change (runs ContentFlows.deleteSelectedContent
                         (script_outcome deleteSelectedContent_requests)).
  unfold ContentFlows.deleteSelectedContent, BasePage.waitForHidden.
  apply FlowLogic.script_seq; [auto with flows |].
  apply FlowLogic.script_seq; [auto with flows |].
  apply (FlowLogic.script_seq _ _ [_] [_]); auto with flows.
Qed.

(** selectContentItem hovers the item's card and then clicks the checkbox
    inside that card, and makes no other request: neither is preceded by
    the page object's wait for visibility.  A rejected hover is passed on
    and no click is made. *)
Theorem selectContentItem_hover_then_click (itemName : string) (w : World X) :
  exists (r : Settled unit) (events : list Event) (x : X),
    ContentFlows.selectContentItem itemName w = Some (r, after w events x)
    /\ script_outcome (selectContentItem_requests itemName) r events.
Proof.
  revert w. change (runs (ContentFlows.selectContentItem itemName)
                         (script_outcome (selectContentItem_requests itemName))).
  apply (FlowLogic.script_seq _ _ [_] [_]); auto with flows.
Qed.

(** selectAllItems and selectNoneItems open the selection menu and then
    choose their option, in that order: the menu button is awaited visible
    and clicked before the option is awaited and clicked, and a rejected
    request stops the flow with its error. *)
Theorem select_all_none_open_menu_first (w : World X) :
  (exists (r : Settled unit) (events : list Event) (x : X),
     ContentPage.selectAllItems w = Some (r, after w events x)
     /\ script_outcome (select_requests ContentPage.selectAllCheckbox) r events)
  /\ (exists (r : Settled unit) (events : list Event) (x : X),
        ContentPage.selectNoneItems w = Some (r, after w events x)
        /\ script_outcome (select_requests ContentPage.selectNoneCheckbox) r events).
Proof.
  split; revert w.
  - change (runs ContentPage.selectAllItems
                 (script_outcome (select_requests ContentPage.selectAllCheckbox))).
    unfold ContentPage.selectAllItems, BasePage.waitForVisible.
    apply (FlowLogic.script_seq _ _ [_]); [auto with flows |].
    apply FlowLogic.script_seq; [auto with flows |].
    apply (FlowLogic.script_seq _ _ [_]); auto with flows.
  - change (runs ContentPage.selectNoneItems
                 (script_outcome (select_requests ContentPage.selectNoneCheckbox))).
    unfold ContentPage.selectNoneItems, BasePage.waitForVisible.
    apply (FlowLogic.script_seq _ _ [_]); [auto with flows |].
    apply FlowLogic.script_seq; [auto with flows |].
    apply (FlowLogic.script_seq _ _ [_]); auto with flows.
Qed.


End WithRuntime.
End ContentFlowsSpec.

(** ** Polling with backoff: the time it takes *)
Module WaitHelperMore.
Import WaitHelperSpec.





Section WithRuntime.
Context {X : Type} `{Runtime X}.


End WithRuntime.
End WaitHelperMore.

(** ** The all-items-checked query: where it stops *)
Module ContentPageMore.
Section WithRuntime.
Context {X : Type} `{Runtime X}.

Lemma areAllItemsChecked_loop_stops (x : X) (n j : Z) (chk : Z -> bool) :
  (forall i, 0 <= i < n ->
     perform (LIsChecked (LocNth item_checkboxes i)) x = (Fulfilled (chk i), x)) ->
  0 <= j < n -> chk j = false ->
  (forall i, 0 <= i < j -> chk i = true) ->
  forall (fuel : nat) (i : Z) (w : World X),
    ext w = x -> 0 <= i <= j -> (Z.to_nat (n - i) < fuel)%nat ->
    ContentPage.areAllItemsChecked_loop fuel item_checkboxes n i w
    = Some (Fulfilled false, after w (checkbox_reads i (j - i + 1)) x).
Proof.
  intros Hread Hj Hfalse Htrue fuel.
  induction fuel as [| fuel IH]; intros i w Hx Hi Hfuel; [lia |].
  simpl. destruct (Z.ltb_spec i n) as [_ | Hge]; [| lia].
  assert (Hc : call (LIsChecked (LocNth item_checkboxes i)) w
               = Some (Fulfilled (chk i),
                       after w [EvCall (LIsChecked (LocNth item_checkboxes i))] x)).
  { apply call_run. rewrite Hx. apply Hread. lia. }
  rewrite (bind_run _ _ _ _ _ Hc).
  unfold checkbox_reads. rewrite seqZ_cons by lia. simpl.
  destruct (Z.eq_dec i j) as [-> | Hne].
  - rewrite Hfalse. simpl.
    replace (Z.pred (j - j + 1)) with 0 by lia. reflexivity.
  - rewrite (Htrue i) by lia. simpl.
    rewrite (IH (i + 1)) by (try reflexivity; lia).
    rewrite after_after. unfold checkbox_reads.
    replace (Z.succ i) with (i + 1) by lia.
    replace (Z.pred (j - i + 1)) with (j - (i + 1) + 1) by lia.
    reflexivity.
Qed.

(** areAllItemsChecked stops at the first unchecked checkbox: on a page
    (that looking at does not change) whose checkbox [j] is the first
    unchecked one, it returns false having read the count and the
    checkboxes 0 to [j], and none after [j]. *)
Theorem areAllItemsChecked_stops_at_first_unchecked (w : World X) (n j : Z)
    (chk : Z -> bool) :
  perform (LCount item_checkboxes) (ext w) = (Fulfilled n, ext w) ->
  (forall i, 0 <= i < n ->
     perform (LIsChecked (LocNth item_checkboxes i)) (ext w) = (Fulfilled (chk i), ext w)) ->
  0 <= j < n -> chk j = false ->
  (forall i, 0 <= i < j -> chk i = true) ->
  ContentPage.areAllItemsChecked w
  = Some (Fulfilled false,
          after w (EvCall (LCount item_checkboxes) :: checkbox_reads 0 (j + 1)) (ext w)).
Proof.
  intros Hcount Hread Hj Hfalse Htrue.
  unfold ContentPage.areAllItemsChecked. fold item_checkboxes.
  rewrite (bind_run _ _ _ _ _ (call_run _ _ _ _ Hcount)).
  destruct (Z.eqb_spec n 0) as [-> | _]; [lia |].
  rewrite (areAllItemsChecked_loop_stops (ext w) n j chk Hread Hj Hfalse Htrue)
    by (try reflexivity; lia).
  rewrite after_after. replace (j - 0 + 1) with (j + 1) by lia. reflexivity.
Qed.

End WithRuntime.
End ContentPageMore.

(** ** Bootstrap: validation, directories, login, browser *)
Module GlobalSetupMore.
Import GlobalSetupSpec.

(** *** Quiet events *)

Lemma quiet_app (evs1 evs2 : list Event) : quiet evs1 -> quiet evs2 -> quiet (evs1 ++ evs2).
Proof. unfold quiet. intros H1 H2. rewrite forallb_app, H1, H2. reflexivity. Qed.

Lemma quiet_not (p : Event -> bool) (events : list Event) :
  (forall ev, p ev = true -> is_browser ev = true) ->
  quiet events -> existsb p events = false.
Proof.
  intros Hp. unfold quiet. induction events as [| ev rest IH]; [reflexivity |].
  simpl. intros [Hev Hrest]%andb_prop. rewrite (IH Hrest), orb_false_r.
  destruct (p ev) eqn:E; [| reflexivity].
  rewrite (Hp ev E) in Hev. discriminate.
Qed.

Lemma is_new_page_browser ev : is_new_page ev = true -> is_browser ev = true.
Proof. destruct ev as [T c | |]; [destruct c |..]; simpl; congruence. Qed.

Lemma is_close_browser ev : is_close ev = true -> is_browser ev = true.
Proof. destruct ev as [T c | |]; [destruct c |..]; simpl; congruence. Qed.

Lemma is_storage_state_browser ev : is_storage_state ev = true -> is_browser ev = true.
Proof. destruct ev as [T c | |]; [destruct c |..]; simpl; congruence. Qed.

Lemma after_first_none (p : Event -> bool) (events : list Event) :
  existsb p events = false -> forall rest, after_first p (events ++ rest) = after_first p rest.
Proof.
  induction events as [| ev evs IH]; [reflexivity |].
  simpl. intros [Hev Hevs]%orb_false_elim rest. rewrite Hev. apply IH. exact Hevs.
Qed.

Section WithRuntime.
Context {X : Type} `{Runtime X}.

Lemma quiet_call {T} (c : Call T) :
  is_browser (EvCall c) = false -> runs (call c) (fun _ events => quiet events).
Proof.
  intros Hc. apply (FlowLogic.runs_impl _ _ _ (FlowLogic.runs_call c)).
  intros r events [-> _]. unfold quiet. cbn [forallb]. rewrite Hc. reflexivity.
Qed.

Lemma quiet_bind {A B} (m : M X A) (k : A -> M X B) :
  runs m (fun _ events => quiet events) ->
  (forall a, runs (k a) (fun _ events => quiet events)) ->
  runs (bind m k) (fun _ events => quiet events).
Proof.
  intros Hm Hk.
  apply (FlowLogic.runs_impl _ _ _
           (FlowLogic.runs_bind m k _ (fun _ _ events => quiet events) Hm Hk)).
  intros r events [(e & _ & Hq) | (a & evs1 & evs2 & -> & Hq1 & Hq2)];
    [exact Hq | apply quiet_app; assumption].
Qed.

(** The directory loop launches nothing. *)
Lemma create_directories_quiet (directories : list string) :
  runs (GlobalSetup.create_directories directories) (fun _ events => quiet events).
Proof.
  induction directories as [| dir rest IH]; simpl.
  - apply (FlowLogic.runs_impl _ _ _ (FlowLogic.runs_ret tt)).
    intros r events [_ ->]. reflexivity.
  - apply quiet_bind; [apply quiet_call; reflexivity | intros resolved].
    apply quiet_bind; [apply quiet_call; reflexivity | intros present].
    apply quiet_bind; [| intros _; exact IH].
    destruct present; simpl.
    + apply (FlowLogic.runs_impl _ _ _ (FlowLogic.runs_ret tt)).
      intros r events [_ ->]. reflexivity.
    + apply quiet_bind; [apply quiet_call; reflexivity | intros _].
      apply quiet_call. reflexivity.
Qed.


(** *** Validation *)

Lemma unset_false (e : gmap string string) (key : string) :
  ProcessEnv.unset e key = false <-> exists v, e !! key = Some v /\ v <> "".
Proof.
  unfold ProcessEnv.unset. destruct (e !! key) as [v |].
  - rewrite bool_decide_eq_false. split.
    + intros Hv. exists v. auto.
    + intros (v' & [= <-] & Hv). exact Hv.
  - split; [discriminate | intros (v & Hv & _); discriminate].
Qed.

Lemma missing_nil_iff (e : gmap string string) :
  missing e = [] <-> forall key, In key required -> exists v, e !! key = Some v /\ v <> "".
Proof.
  unfold missing, required. simpl. split.
  - intros Hnil key Hkey.
    apply unset_false.
    destruct (ProcessEnv.unset e "BASE_URL") eqn:E1; [discriminate |].
    destruct (ProcessEnv.unset e "USER_EMAIL") eqn:E2; [discriminate |].
    destruct (ProcessEnv.unset e "USER_PASSWORD") eqn:E3; [discriminate |].
    destruct Hkey as [<- | [<- | [<- | []]]]; assumption.
  - intros Hall.
    rewrite (proj2 (unset_false e "BASE_URL")) by (apply Hall; tauto).
    rewrite (proj2 (unset_false e "USER_EMAIL")) by (apply Hall; tauto).
    rewrite (proj2 (unset_false e "USER_PASSWORD")) by (apply Hall; tauto).
    reflexivity.
Qed.

Lemma validateEnvironment_run (w : World X) :
  missing (env w) = [] -> Env.validateEnvironment w = Some (Fulfilled tt, w).
Proof.
  intros Hnil. unfold Env.validateEnvironment, bind, ProcessEnv.read.
  fold required. fold (missing (env w)). rewrite Hnil. reflexivity.
Qed.

(** validateEnvironment returns normally exactly when BASE_URL, USER_EMAIL
    and USER_PASSWORD are all set to a value that is not the empty
    string. *)
Theorem validateEnvironment_passes_iff (w : World X) :
  Env.validateEnvironment w = Some (Fulfilled tt, w)
  <-> forall key, In key required -> exists v, env w !! key = Some v /\ v <> "".
Proof.
  rewrite <- missing_nil_iff.
  unfold Env.validateEnvironment, bind, ProcessEnv.read.
  fold required. fold (missing (env w)).
  destruct (missing (env w)) as [| name names]; simpl.
  - split; reflexivity.
  - split; discriminate.
Qed.

(** A required variable that is set to the empty string counts as missing:
    globalSetup throws, and lists it. *)
Theorem globalSetup_empty_value_is_missing (w w1 : World X) (key : string) :
  ProcessEnv.dotenv_config w = Some (Fulfilled tt, w1) ->
  In key required ->
  env w1 !! key = Some "" ->
  GlobalSetup.globalSetup w = Some (Rejected (setup_error (missing (env w1))), w1)
  /\ In key (missing (env w1)).
Proof.
  intros Hdot Hreq Hempty.
  assert (Hin : In key (missing (env w1))).
  { unfold missing. apply filter_In. split; [exact Hreq |].
    unfold ProcessEnv.unset. rewrite Hempty. reflexivity. }
  split; [| exact Hin].
  unfold GlobalSetup.globalSetup.
  rewrite (bind_run _ _ _ _ _ Hdot).
  unfold bind, ProcessEnv.read. fold required. fold (missing (env w1)).
  rewrite (missing_nonempty _ _ Hin). reflexivity.
Qed.

(** *** Login and browser *)

Lemma authenticate_script (e : gmap string string) :
  runs (GlobalSetup.authenticate e) (script_outcome (authenticate_requests e)).
Proof.
  unfold GlobalSetup.authenticate, authenticate_requests.
  repeat (apply (FlowLogic.script_seq _ _ [_]); [apply FlowLogic.script_call |]).
  apply FlowLogic.script_call.
Qed.

(** The [try]/[catch]/[finally] of globalSetup: the browser is closed last,
    whatever the login did. *)
Lemma login_block (e : gmap string string) :
  runs (try_finally
          (try_catch (GlobalSetup.authenticate e)
             (fun error =>
                bind (call (ConsoleError ("[Global Setup] Authentication failed: "
                                          +:+ exn_toString error)))
                     (fun _ => throw error)))
          (call BrowserClose))
       (fun r events =>
          exists (r1 : Settled unit) (login report : list Event) (rc : Settled unit),
            script_outcome (authenticate_requests e) r1 login
            /\ events = login ++ report ++ [EvCall BrowserClose]
            /\ match r1 with
               | Fulfilled _ =>
                   report = []
                   /\ r = match rc with
                          | Fulfilled _ => Fulfilled tt
                          | Rejected ec => Rejected ec
                          end
               | Rejected _ =>
                   (exists text, report = [EvCall (ConsoleError text)])
                   /\ exists e0, r = Rejected e0
               end).
Proof.
  eapply FlowLogic.runs_impl.
  { apply FlowLogic.runs_try_finally.
    - apply FlowLogic.runs_try_catch; [apply authenticate_script | intros error].
      apply FlowLogic.runs_bind; [apply FlowLogic.runs_call | intros ?].
      apply FlowLogic.runs_throw.
    - apply FlowLogic.runs_call. }
  intros r events (r1 & rc & evs1 & evs2 & -> & Hbody & [-> _] & ->).
  destruct Hbody as [([] & -> & Hscript) | (e1 & login & report & -> & Hscript & Hhandler)].
  - exists (Fulfilled tt), evs1, [], rc. split; [exact Hscript |].
    split; [reflexivity | split; [reflexivity | destruct rc; reflexivity]].
  - exists (Rejected e1), login, report, rc. split; [exact Hscript |].
    split; [rewrite <- app_assoc; reflexivity |].
    destruct Hhandler as [(e' & -> & -> & _)
                         | (a & evs & evs' & -> & [-> _] & -> & ->)].
    + split; [eauto | destruct rc; eauto].
    + split; [eauto | destruct rc; eauto].
Qed.

(** Every run of globalSetup has one of the shapes of [setup_shape]. *)
Lemma globalSetup_shape (w : World X) :
  exists (w1 : World X) (r : Settled unit) (events : list Event) (x : X),
    ProcessEnv.dotenv_config w = Some (Fulfilled tt, w1)
    /\ trace w1 = trace w ++ [EvCall DotenvConfig]
    /\ GlobalSetup.globalSetup w = Some (r, after w1 events x)
    /\ setup_shape (env w1) r events.
Proof.
  destruct (dotenv_config_run w) as (w1 & Hdot & Htrace).
  cut (exists (r : Settled unit) (events : list Event) (x : X),
         GlobalSetup.globalSetup w = Some (r, after w1 events x)
         /\ setup_shape (env w1) r events).
  { intros (r & events & x & Hrun & Hshape). exists w1, r, events, x. auto. }
  unfold GlobalSetup.globalSetup.
  rewrite (bind_run _ _ _ _ _ Hdot).
  unfold bind at 1, ProcessEnv.read. fold required. fold (missing (env w1)).
  destruct (bool_decide (0 < length (missing (env w1)))%nat).
  - exists (Rejected (setup_error (missing (env w1)))), [], (ext w1).
    split; [rewrite after_nil; reflexivity |].
    exists []. split; [reflexivity | left; eauto].
  - clear Hdot Htrace. set (e := env w1). clearbody e. revert w1.
    match goal with
    | |- forall w1, exists r events x, ?m w1 = _ /\ _ =>
        change (runs m (setup_shape e))
    end.
    eapply FlowLogic.runs_impl.
    { apply FlowLogic.runs_bind; [apply quiet_call; reflexivity | intros ?].
      apply FlowLogic.runs_bind; [apply create_directories_quiet | intros ?].
      apply FlowLogic.runs_bind; [apply FlowLogic.runs_call | intros ?].
      apply FlowLogic.runs_bind; [apply FlowLogic.runs_call | intros ?].
      apply FlowLogic.runs_bind; [apply login_block | intros ?].
      apply FlowLogic.runs_call. }
    cbv beta.
    intros r events
      [ (e0 & -> & Hq0)
      | (a0 & ev0 & evs0 & -> & Hq0 &
         [ (e1 & -> & Hq1)
         | (a1 & ev1 & evs1 & -> & Hq1 &
            [ (e2 & -> & -> & _)
            | (a2 & ev2 & evs2 & -> & [-> _] &
               [ (e3 & -> & -> & _)
               | (a3 & ev3 & evs3 & -> & [-> _] &
                  [ (e4 & -> & Hblock)
                  | (a4 & ev4 & evs4 & -> & Hblock & -> & _) ]) ]) ]) ]) ].
    + exists events. split; [exact Hq0 | left; eauto].
    + exists (ev0 ++ evs0). split; [apply quiet_app; assumption | left; eauto].
    + exists (ev0 ++ ev1). split; [apply quiet_app; assumption |].
      right; left. exists e2. rewrite <- app_assoc. auto.
    + exists (ev0 ++ ev1). split; [apply quiet_app; assumption |].
      right; right; left. exists e3. rewrite <- app_assoc. auto.
    + exists (ev0 ++ ev1). split; [apply quiet_app; assumption |].
      right; right; right.
      destruct Hblock as (r1 & login & report & rc & Hscript & -> & Hr1).
      exists r1, login, report, []. split; [exact Hscript |].
      split; [rewrite <- !app_assoc; reflexivity |].
      destruct r1 as [u | e1].
      * destruct Hr1 as [-> Hr]. split; [reflexivity | left; eauto].
      * destruct Hr1 as [Hreport He0]. auto.
    + exists (ev0 ++ ev1). split; [apply quiet_app; assumption |].
      right; right; right.
      destruct Hblock as (r1 & login & report & rc & Hscript & -> & Hr1).
      exists r1, login, report, [EvCall final_log]. split; [exact Hscript |].
      split; [rewrite <- !app_assoc; reflexivity |].
      destruct r1 as [u | e1].
      * destruct Hr1 as [-> _]. split; [reflexivity | right; reflexivity].
      * destruct Hr1 as [_ (e0 & He0)]. discriminate He0.
Qed.

(** Once globalSetup has opened the page and gone on, it closes the
    browser, whatever the login does: if any request follows the opening
    of the page, a close is among the requests that follow.  When the
    opening of the page is the last request (it was rejected), the browser
    that was launched is not closed. *)
Theorem globalSetup_closes_browser (w : World X) :
  exists (r : Settled unit) (w' : World X) (events : list Event),
    GlobalSetup.globalSetup w = Some (r, w')
    /\ trace w' = trace w ++ EvCall DotenvConfig :: events
    /\ (after_first is_new_page events <> [] ->
        existsb is_close (after_first is_new_page events) = true)
    /\ (is_new_page <$> last events = Some true ->
        existsb is_launch events = true /\ existsb is_close events = false).
Proof.
  destruct (globalSetup_shape w)
    as (w1 & r & events & x & _ & Htrace & Hrun & before & Hquiet & Hshape).
  exists r, (after w1 events x), events.
  split; [exact Hrun |].
  split; [simpl; rewrite Htrace, <- app_assoc; reflexivity |].
  pose proof (quiet_not is_new_page before is_new_page_browser Hquiet) as Hnp.
  pose proof (quiet_not is_close before is_close_browser Hquiet) as Hcl.
  destruct Hshape as [(e0 & -> & ->)
                     | [(e0 & -> & ->)
                       | [(e0 & -> & ->)
                         | (r1 & login & report & rest & Hscript & -> & Hr1)]]].
  - split.
    + rewrite <- (app_nil_r before), (after_first_none _ _ Hnp). intros []; reflexivity.
    + intros Hlast. exfalso.
      destruct (last before) as [ev |] eqn:El; [| discriminate].
      apply last_Some in El as [l' ->].
      rewrite existsb_app in Hnp. simpl in Hnp, Hlast.
      injection Hlast as Hlast. rewrite Hlast in Hnp.
      rewrite orb_true_r in Hnp. discriminate.
  - split.
    + rewrite (after_first_none _ _ Hnp). intros []; reflexivity.
    + rewrite last_snoc. discriminate.
  - split.
    + rewrite (after_first_none _ _ Hnp). intros []; reflexivity.
    + intros _. rewrite !existsb_app, Hcl. split; [apply orb_true_r | reflexivity].
  - split.
    + intros _. rewrite (after_first_none _ _ Hnp). cbn [app after_first is_new_page is_request].
      rewrite !existsb_app. cbn [existsb is_close is_request].
      rewrite !orb_true_r. reflexivity.
    + intros Hlast. exfalso.
      assert (Hrest : rest = [] \/ rest = [EvCall final_log]).
      { destruct r1; [destruct Hr1 as [_ [(e0 & _ & ->) | ->]] | destruct Hr1 as (_ & -> & _)];
          auto. }
      rewrite !app_assoc in Hlast.
      destruct Hrest as [-> | ->].
      * rewrite app_nil_r, last_snoc in Hlast. discriminate.
      * rewrite last_snoc in Hlast. discriminate.
Qed.

(** Without the dashboard there is no session: on a driver where the wait
    for the dashboard URL is never fulfilled, globalSetup is always
    rejected and never asks for the storage state to be saved. *)
Theorem globalSetup_needs_dashboard :
  (forall x0 x1 : X,
     perform (PageWaitForURL ".*dashboard" 30000) x0 <> (Fulfilled tt, x1)) ->
  forall w : World X,
    exists (e : Exn) (w' : World X) (events : list Event),
      GlobalSetup.globalSetup w = Some (Rejected e, w')
      /\ trace w' = trace w ++ EvCall DotenvConfig :: events
      /\ existsb is_storage_state events = false.
Proof.
  intros Hnever w.
  destruct (globalSetup_shape w)
    as (w1 & r & events & x & _ & Htrace & Hrun & before & Hquiet & Hshape).
  pose proof (quiet_not is_storage_state before is_storage_state_browser Hquiet) as Hss.
  assert (Htr : trace (after w1 events x) = trace w ++ EvCall DotenvConfig :: events)
    by (simpl; rewrite Htrace, <- app_assoc; reflexivity).
  destruct Hshape as [(e0 & -> & ->)
                     | [(e0 & -> & ->)
                       | [(e0 & -> & ->)
                         | (r1 & login & report & rest & Hscript & -> & Hr1)]]].
  - exists e0, (after w1 before x), before. auto.
  - exists e0, (after w1 (before ++ [EvCall ChromiumLaunch]) x), (before ++ [EvCall ChromiumLaunch]).
    split; [exact Hrun | split; [exact Htr |]].
    rewrite existsb_app, Hss. reflexivity.
  - eexists e0, _, _. split; [exact Hrun | split; [exact Htr |]].
    rewrite existsb_app, Hss. reflexivity.
  - destruct Hscript as (n & -> & Hn).
    destruct r1 as [u | e1].
    + exfalso. destruct Hn as [_ Hall].
      pose proof (Forall_lookup_1 _ _ 5%nat _ Hall eq_refl) as (x0 & x1 & Hp).
      exact (Hnever _ _ Hp).
    + destruct Hr1 as ((text & ->) & -> & e0 & ->).
      destruct Hn as (c & x0 & x1 & _ & _ & _ & Hall).
      eexists e0, _, _. split; [exact Hrun | split; [exact Htr |]].
      rewrite !existsb_app, Hss.
      do 7 (destruct n as [| n]; [reflexivity |]).
      exfalso.
      pose proof (Forall_lookup_1 _ _ 5%nat _ Hall eq_refl) as (y0 & y1 & Hp).
      exact (Hnever _ _ Hp).
Qed.

(** A fulfilled globalSetup has launched the browser, opened a page, made
    all the login requests in order (the wait for the dashboard before the
    saving of the storage state), closed the browser and logged its last
    line, and nothing after that. *)
Theorem globalSetup_fulfilled_shape (w w' : World X) :
  GlobalSetup.globalSetup w = Some (Fulfilled tt, w') ->
  exists (w1 : World X) (before : list Event),
    ProcessEnv.dotenv_config w = Some (Fulfilled tt, w1)
    /\ quiet before
    /\ trace w' = trace w1 ++ before
                  ++ [EvCall ChromiumLaunch; EvCall BrowserNewPage]
                  ++ requested (authenticate_requests (env w1))
                  ++ [EvCall BrowserClose; EvCall final_log].
Proof.
  intros Hok.
  destruct (globalSetup_shape w)
    as (w1 & r & events & x & Hdot & _ & Hrun & before & Hquiet & Hshape).
  rewrite Hrun in Hok. injection Hok as -> <-.
  exists w1, before. split; [exact Hdot | split; [exact Hquiet |]].
  destruct Hshape as [(e0 & He0 & _)
                     | [(e0 & He0 & _)
                       | [(e0 & He0 & _)
                         | (r1 & login & report & rest & Hscript & -> & Hr1)]]];
    try discriminate He0.
  destruct Hscript as (n & -> & Hn).
  destruct r1 as [u | e1]; [| destruct Hr1 as (_ & _ & e0 & He0); discriminate He0].
  destruct Hn as [-> _].
  destruct Hr1 as [-> [(e0 & He0 & _) | ->]]; [discriminate He0 |].
  simpl. reflexivity.
Qed.

End WithRuntime.
End GlobalSetupMore.

(** ** Configuration getters *)
Module EnvConfigSpec.
Import EnvConfig GlobalSetupMore.

(** *** Decimal numerals *)














(** *** The getters *)


(** A default that is falsy never applies.  With the variable unset,
    getBooleanConfigValue called with the default [false] and
    getNumericConfigValue called with the default [0] return the built-in
    default of the key instead (for [headless] that is [true]). *)
Theorem falsy_defaults_are_ignored (e : gmap string string) (key : ConfigKey) :
  e !! env_key key = None ->
  getBooleanConfigValue e key (Some false) = Returns (defaultConfig key)
  /\ getNumericConfigValue e key (Some 0) = Returns (defaultConfig key).
Proof.
  intros Hvar. unfold getBooleanConfigValue, getNumericConfigValue.
  rewrite Hvar. split; reflexivity.
Qed.

(** *** Building the configuration *)

Lemma getConfigValue_required (e : gmap string string) (key : ConfigKey) :
  defaultConfig key = JUndefined ->
  getConfigValue e key None
  = if ProcessEnv.unset e (env_key key)
    then Throws (Error ("Configuration value for " +:+ key_name key +:+ " is missing"))
    else Returns (JString (default "" (e !! env_key key))).
Proof.
  intros Hdef. unfold getConfigValue, ProcessEnv.unset, js_or. rewrite Hdef.
  destruct (e !! env_key key) as [v |]; cbn [of_string]; [| reflexivity].
  destruct (bool_decide_reflect (v = "")) as [-> | Hne]; [reflexivity |].
  assert (Ht : truthy (JString v) = true)
    by (unfold truthy; rewrite bool_decide_eq_false_2 by exact Hne; reflexivity).
  rewrite !Ht. cbn [negb andb]. reflexivity.
Qed.

Lemma getConfigValue_defaulted (e : gmap string string) (key : ConfigKey) :
  truthy (defaultConfig key) = true ->
  exists v, getConfigValue e key None = Returns v.
Proof.
  intros Hdef. unfold getConfigValue, js_or.
  destruct (truthy (of_string (e !! env_key key))) eqn:E; simpl; rewrite ?E, ?Hdef;
    simpl; eauto.
Qed.

Lemma getNumericConfigValue_returns_iff (e : gmap string string) (key : ConfigKey) :
  (exists v, getNumericConfigValue e key None = Returns v) <-> numeric_ok e key.
Proof.
  unfold getNumericConfigValue, numeric_ok.
  destruct (e !! env_key key) as [value |]; simpl; [| split; eauto].
  destruct (bool_decide_reflect (value = "")) as [-> | Hne]; simpl.
  - split; eauto.
  - destruct (parseInt10 value) as [parsed |]; split.
    + intros _. right. discriminate.
    + eauto.
    + intros [v Hv]. discriminate Hv.
    + intros [He | Hp]; [destruct (Hne He) | destruct (Hp eq_refl)].
Qed.

Lemma getBooleanConfigValue_returns (e : gmap string string) (key : ConfigKey)
    (defaultValue : option bool) :
  exists v, getBooleanConfigValue e key defaultValue = Returns v.
Proof. unfold getBooleanConfigValue. destruct (e !! env_key key); eauto. Qed.

Lemma required_returns (e : gmap string string) (key : ConfigKey) (name : string) :
  defaultConfig key = JUndefined -> env_key key = name ->
  (exists v, getConfigValue e key None = Returns v)
  <-> exists v, e !! name = Some v /\ v <> "".
Proof.
  intros Hdef <-. rewrite (getConfigValue_required e key Hdef), <- unset_false.
  destruct (ProcessEnv.unset e (env_key key)); split; eauto; try discriminate.
  intros [v Hv]. discriminate Hv.
Qed.

Lemma config_returns_facts (e : gmap string string) (c : Config) :
  config e = Returns c ->
  (forall key, In key required -> exists v, e !! key = Some v /\ v <> "")
  /\ (forall key, In key numeric_keys -> numeric_ok e key).
Proof.
  unfold config. intros Hc.
  repeat match type of Hc with
         | and_then ?g _ = Returns _ =>
             let v := fresh "v" in
             let E := fresh "E" in
             destruct g as [v |] eqn:E; [cbn [and_then] in Hc | discriminate Hc]
         end.
  split.
  - intros key [<- | [<- | [<- | []]]].
    + apply (required_returns e baseUrl); eauto.
    + apply (required_returns e userEmail); eauto.
    + apply (required_returns e userPassword); eauto.
  - intros key [<- | [<- | [<- | [<- | []]]]];
      apply getNumericConfigValue_returns_iff; eauto.
Qed.

Lemma config_returns_when (e : gmap string string) :
  (forall key, In key required -> exists v, e !! key = Some v /\ v <> "") ->
  (forall key, In key numeric_keys -> numeric_ok e key) ->
  exists c, config e = Returns c.
Proof.
  intros Hreq Hnum. unfold config.
  destruct (proj2 (required_returns e baseUrl "BASE_URL" eq_refl eq_refl)
              (Hreq "BASE_URL" ltac:(simpl; tauto))) as [v1 ->].
  destruct (proj2 (required_returns e userEmail "USER_EMAIL" eq_refl eq_refl)
              (Hreq "USER_EMAIL" ltac:(simpl; tauto))) as [v2 ->].
  destruct (proj2 (required_returns e userPassword "USER_PASSWORD" eq_refl eq_refl)
              (Hreq "USER_PASSWORD" ltac:(simpl; tauto))) as [v3 ->].
  destruct (proj2 (getNumericConfigValue_returns_iff e testTimeout)
              (Hnum testTimeout ltac:(simpl; tauto))) as [v4 ->].
  destruct (proj2 (getNumericConfigValue_returns_iff e actionTimeout)
              (Hnum actionTimeout ltac:(simpl; tauto))) as [v5 ->].
  destruct (proj2 (getNumericConfigValue_returns_iff e navigationTimeout)
              (Hnum navigationTimeout ltac:(simpl; tauto))) as [v6 ->].
  destruct (getConfigValue_defaulted e testFilesPath eq_refl) as [v7 ->].
  destruct (getConfigValue_defaulted e screenshotsPath eq_refl) as [v8 ->].
  destruct (getConfigValue_defaulted e downloadsPath eq_refl) as [v9 ->].
  destruct (getBooleanConfigValue_returns e headless None) as [v10 ->].
  destruct (proj2 (getNumericConfigValue_returns_iff e slowMo)
              (Hnum slowMo ltac:(simpl; tauto))) as [v11 ->].
  destruct (getConfigValue_defaulted e reportPath eq_refl) as [v12 ->].
  destruct (getConfigValue_defaulted e tracePath eq_refl) as [v13 ->].
  destruct (getConfigValue_defaulted e contentModulePath eq_refl) as [v14 ->].
  destruct (getConfigValue_defaulted e playerModulePath eq_refl) as [v15 ->].
  eexists. reflexivity.
Qed.

(** The configuration object is built exactly when BASE_URL, USER_EMAIL and
    USER_PASSWORD are set to non-empty values and each of TEST_TIMEOUT,
    ACTION_TIMEOUT, NAVIGATION_TIMEOUT and SLOW_MO is unset, empty, or a
    text that parseInt makes a number of; no other variable can make the
    construction throw. *)
Theorem config_returns_iff (e : gmap string string) :
  (exists c, config e = Returns c)
  <-> (forall key, In key required -> exists v, e !! key = Some v /\ v <> "")
      /\ (forall key, In key numeric_keys -> numeric_ok e key).
Proof.
  split.
  - intros [c Hc]. exact (config_returns_facts e c Hc).
  - intros [Hreq Hnum]. exact (config_returns_when e Hreq Hnum).
Qed.

(** When BASE_URL is unset or empty the construction of the configuration
    throws 'Configuration value for baseUrl is missing', whatever else is
    set or missing: the error names this one key, not the list of the
    missing variables. *)
Theorem config_names_first_missing (e : gmap string string) :
  ProcessEnv.unset e "BASE_URL" = true ->
  config e = Throws (Error "Configuration value for baseUrl is missing").
Proof.
  intros Hunset. unfold config.
  rewrite (getConfigValue_required e baseUrl eq_refl).
  change (env_key baseUrl) with "BASE_URL". rewrite Hunset. reflexivity.
Qed.

Section WithRuntime.
Context {X : Type} `{Runtime X}.

(** Once the configuration object is built, validateEnvironment cannot
    throw: the check the module makes after building it always passes. *)
Theorem validateEnvironment_after_config (w : World X) (c : Config) :
  config (env w) = Returns c ->
  Env.validateEnvironment w = Some (Fulfilled tt, w).
Proof.
  intros Hc. apply validateEnvironment_run. apply missing_nil_iff.
  exact (proj1 (config_returns_facts _ _ Hc)).
Qed.

End WithRuntime.
End EnvConfigSpec.

(** ** Validation of e-mail addresses *)
Module ValidationHelperSpec.
Import ValidationHelper.

(** *** The matcher decides the language *)

Lemma nullable_spec (r : Regex) : nullable r = true <-> lang r [].
Proof.
  induction r as [| | accepts | r1 IH1 r2 IH2 | r1 IH1 r2 IH2 | r IH]; simpl.
  - split; [discriminate | inversion 1].
  - split; [constructor | reflexivity].
  - split; [discriminate | inversion 1].
  - rewrite andb_true_iff, IH1, IH2. split.
    + intros [H1 H2]. exact (lang_seq _ _ [] [] H1 H2).
    + inversion 1 as [| | ? ? s1 s2 H1 H2 E1 E2 | | | |]; subst.
      apply app_eq_nil in E2 as [-> ->]. auto.
  - rewrite orb_true_iff, IH1, IH2. split.
    + intros [H | H]; [apply lang_alt_l | apply lang_alt_r]; exact H.
    + inversion 1; subst; auto.
  - split; [constructor | reflexivity].
Qed.

(** A non-empty string of [r*] starts with a non-empty string of [r]. *)
Lemma lang_star_cons (r : Regex) (s : list Z) :
  lang (RStar r) s ->
  forall c rest, s = c :: rest ->
    exists s1 s2, rest = s1 ++ s2 /\ lang r (c :: s1) /\ lang (RStar r) s2.
Proof.
  remember (RStar r) as r' eqn:Er. intros Hl. revert r Er.
  induction Hl as [| | | | | r0 | r0 s1 s2 H1 _ H2 IH2]; intros r Er; try discriminate Er.
  - intros c rest E. discriminate E.
  - injection Er as ->. intros c rest E.
    destruct s1 as [| c1 s1'].
    + apply (IH2 r eq_refl c rest). exact E.
    + simpl in E. injection E as -> <-. exists s1', s2. auto.
Qed.

Lemma derive_spec (r : Regex) :
  forall (c : Z) (s : list Z), lang (derive c r) s <-> lang r (c :: s).
Proof.
  induction r as [| | accepts | r1 IH1 r2 IH2 | r1 IH1 r2 IH2 | r IH]; intros c s; simpl.
  - split; inversion 1.
  - split; inversion 1.
  - destruct (accepts c) eqn:E; split.
    + inversion 1; subst. constructor. exact E.
    + inversion 1; subst. constructor.
    + inversion 1.
    + inversion 1; subst. congruence.
  - assert (Hleft : forall s', lang (RSeq (derive c r1) r2) s' -> lang (RSeq r1 r2) (c :: s')).
    { inversion 1 as [| | ? ? s1 s2 H1 H2 | | | |]; subst.
      apply IH1 in H1. exact (lang_seq _ _ (c :: s1) s2 H1 H2). }
    assert (Hsplit : lang (RSeq r1 r2) (c :: s) ->
                     lang (RSeq (derive c r1) r2) s
                     \/ (lang r1 [] /\ lang r2 (c :: s))).
    { inversion 1 as [| | ? ? s1 s2 H1 H2 E1 E2 | | | |]; subst.
      destruct s1 as [| c1 s1'].
      - right. simpl in E2. subst. auto.
      - left. simpl in E2. injection E2 as -> <-.
        apply lang_seq; [apply IH1; exact H1 | exact H2]. }
    destruct (nullable r1) eqn:En; split.
    + inversion 1; subst; [apply Hleft; assumption |].
      apply (lang_seq _ _ [] (c :: s)); [apply nullable_spec; exact En | apply IH2; assumption].
    + intros H. destruct (Hsplit H) as [Hl | [_ Hr]];
        [apply lang_alt_l; exact Hl | apply lang_alt_r, IH2; exact Hr].
    + apply Hleft.
    + intros H. destruct (Hsplit H) as [Hl | [Hn _]]; [exact Hl |].
      apply nullable_spec in Hn. congruence.
  - split.
    + inversion 1; subst; [apply lang_alt_l, IH1 | apply lang_alt_r, IH2]; assumption.
    + inversion 1; subst; [apply lang_alt_l, IH1 | apply lang_alt_r, IH2]; assumption.
  - split.
    + inversion 1 as [| | ? ? s1 s2 H1 H2 | | | |]; subst.
      apply IH in H1. exact (lang_star_app _ (c :: s1) s2 H1 H2).
    + intros H. destruct (lang_star_cons r _ H c s eq_refl) as (s1 & s2 & -> & H1 & H2).
      apply lang_seq; [apply IH; exact H1 | exact H2].
Qed.

Lemma matches_spec (s : list Z) : forall r : Regex, matches r s = true <-> lang r s.
Proof.
  induction s as [| c rest IH]; intros r; simpl.
  - apply nullable_spec.
  - rewrite IH. apply derive_spec.
Qed.

(** *** The language of the pattern *)

Lemma lang_star_class (accepts : Z -> bool) (s : list Z) :
  lang (RStar (RClass accepts)) s <-> Forall (fun c => accepts c = true) s.
Proof.
  split.
  - remember (RStar (RClass accepts)) as r eqn:Er. intros Hl.
    induction Hl as [| | | | | r0 | r0 s1 s2 H1 _ H2 IH2]; try discriminate Er.
    + constructor.
    + injection Er as ->. inversion H1; subst. constructor; [assumption | apply IH2; reflexivity].
  - induction 1 as [| c rest Hc _ IH]; [constructor |].
    exact (lang_star_app _ [c] rest (lang_class _ _ Hc) IH).
Qed.

Lemma lang_plus_class (accepts : Z -> bool) (s : list Z) :
  lang (RPlus (RClass accepts)) s <-> s <> [] /\ Forall (fun c => accepts c = true) s.
Proof.
  unfold RPlus. split.
  - inversion 1 as [| | ? ? s1 s2 H1 H2 | | | |]; subst.
    inversion H1; subst. apply lang_star_class in H2.
    split; [discriminate | constructor; assumption].
  - intros [Hne Hall]. destruct Hall as [| c rest Hc Hrest]; [congruence |].
    apply (lang_seq _ _ [c] rest); [constructor; exact Hc | apply lang_star_class; exact Hrest].
Qed.

Lemma lang_char (d : Z) (s : list Z) : lang (RChar d) s <-> s = [d].
Proof.
  unfold RChar. split.
  - inversion 1 as [| ? c Hc | | | | |]; subst. apply Z.eqb_eq in Hc. subst. reflexivity.
  - intros ->. constructor. apply Z.eqb_refl.
Qed.

(** What the pattern's five parts take from a string it matches. *)
Lemma isValidEmail_parts (email : list Z) :
  isValidEmail email = true ->
  exists local domain rest : list Z,
    email = local ++ 64 :: domain ++ 46 :: rest
    /\ word local /\ word domain /\ word rest.
Proof.
  unfold isValidEmail. rewrite matches_spec. unfold emailRegex, word.
  inversion 1 as [| | ? ? l s1 Hl H1 | | | |]; subst.
  inversion H1 as [| | ? ? a s2 Ha H2 | | | |]; subst.
  inversion H2 as [| | ? ? d s3 Hd H3 | | | |]; subst.
  inversion H3 as [| | ? ? p t Hp Ht | | | |]; subst.
  apply lang_char in Ha, Hp. subst.
  apply lang_plus_class in Hl, Hd, Ht.
  exists l, d, t. auto.
Qed.

(** isValidEmail accepts exactly the strings of the form
    local @ domain . rest, where local, domain and rest are non-empty and
    hold neither white space nor '@' (each may hold dots). *)
Theorem isValidEmail_iff (email : list Z) :
  isValidEmail email = true
  <-> exists local domain rest : list Z,
        email = local ++ 64 :: domain ++ 46 :: rest
        /\ word local /\ word domain /\ word rest.
Proof.
  split; [apply isValidEmail_parts |].
  intros (l & d & t & -> & Hl & Hd & Ht).
  unfold isValidEmail. rewrite matches_spec. unfold emailRegex.
  unfold word in Hl, Hd, Ht.
  apply lang_plus_class in Hl, Hd, Ht.
  apply lang_seq; [exact Hl |].
  apply (lang_seq _ _ [64]); [apply lang_char; reflexivity |].
  apply lang_seq; [exact Hd |].
  apply (lang_seq _ _ [46]); [apply lang_char; reflexivity | exact Ht].
Qed.

Lemma word_no_at (s : list Z) : word s -> count_occ Z.eq_dec s 64 = 0%nat.
Proof.
  intros [_ Hall]. induction Hall as [| c rest Hc _ IH]; [reflexivity |].
  rewrite count_occ_cons_neq; [exact IH |].
  unfold plain in Hc. apply andb_true_iff in Hc as [_ Hc].
  apply negb_true_iff, Z.eqb_neq in Hc. exact Hc.
Qed.

Lemma word_no_space (s : list Z) : word s -> Forall (fun c => is_space c = false) s.
Proof.
  intros [_ Hall]. apply (Forall_impl _ _ _ Hall). intros c Hc.
  unfold plain in Hc. apply andb_true_iff in Hc as [Hc _].
  apply negb_true_iff in Hc. exact Hc.
Qed.

(** An address that isValidEmail accepts holds exactly one '@' and no
    white space. *)
Theorem isValidEmail_one_at_no_space (email : list Z) :
  isValidEmail email = true ->
  count_occ Z.eq_dec email 64 = 1%nat
  /\ Forall (fun c => is_space c = false) email.
Proof.
  intros Hvalid.
  destruct (isValidEmail_parts email Hvalid)
    as (l & d & t & -> & Hl & Hd & Ht).
  split.
  - rewrite count_occ_app, (word_no_at l Hl). cbn [count_occ].
    destruct (Z.eq_dec 64 64) as [_ | Hne]; [| destruct (Hne eq_refl)].
    rewrite count_occ_app, (word_no_at d Hd). cbn [count_occ].
    destruct (Z.eq_dec 46 64) as [Heq | _]; [discriminate Heq |].
    rewrite (word_no_at t Ht). reflexivity.
  - apply Forall_app. split; [apply word_no_space; exact Hl |].
    constructor; [reflexivity |].
    apply Forall_app. split; [apply word_no_space; exact Hd |].
    constructor; [reflexivity | apply word_no_space; exact Ht].
Qed.

End ValidationHelperSpec.

(** ** Further concrete runs *)
Module MoreRuns.
Import Fixture Scenario Fixture2 EnvConfig ValidationHelper.

(** Three items, the second unchecked: the query stops after the second. *)
Lemma areAllItemsChecked_stops_witness :
  perform (LCount item_checkboxes) (ext second_unchecked)
    = (Fulfilled 3, ext second_unchecked)
  /\ (forall i, 0 <= i < 3 ->
        perform (LIsChecked (LocNth item_checkboxes i)) (ext second_unchecked)
          = (Fulfilled (second_unchecked_state i), ext second_unchecked))
  /\ 0 <= 1 < 3
  /\ second_unchecked_state 1 = false
  /\ (forall i, 0 <= i < 1 -> second_unchecked_state i = true)
  /\ ContentPage.areAllItemsChecked second_unchecked
     = Some (Fulfilled false,
             after second_unchecked
                   (EvCall (LCount item_checkboxes) :: checkbox_reads 0 2)
                   (ext second_unchecked)).
Proof.
  assert (H1 : perform (LCount item_checkboxes) (ext second_unchecked)
               = (Fulfilled 3, ext second_unchecked)) by reflexivity.
  assert (H2 : forall i, 0 <= i < 3 ->
               perform (LIsChecked (LocNth item_checkboxes i)) (ext second_unchecked)
               = (Fulfilled (second_unchecked_state i), ext second_unchecked))
    by (intros i _; reflexivity).
  assert (H3 : 0 <= 1 < 3) by lia.
  assert (H4 : second_unchecked_state 1 = false) by reflexivity.
  assert (H5 : forall i, 0 <= i < 1 -> second_unchecked_state i = true).
  { intros i Hi. replace i with 0 by lia. reflexivity. }
  repeat (split; [assumption |]).
  exact (ContentPageMore.areAllItemsChecked_stops_at_first_unchecked
           second_unchecked 3 1 second_unchecked_state H1 H2 H3 H4 H5).
Defined.


(** USER_EMAIL set to the empty string: the bootstrap throws and names it. *)
Lemma globalSetup_empty_value_witness :
  ProcessEnv.dotenv_config empty_email
    = Some (Fulfilled tt, after empty_email [EvCall DotenvConfig] empty_stage)
  /\ In "USER_EMAIL" required
  /\ env (after empty_email [EvCall DotenvConfig] empty_stage) !! "USER_EMAIL" = Some ""
  /\ GlobalSetup.globalSetup empty_email
     = Some (Rejected (setup_error ["USER_EMAIL"]),
             after empty_email [EvCall DotenvConfig] empty_stage).
Proof.
  assert (Hdot : ProcessEnv.dotenv_config empty_email
                 = Some (Fulfilled tt, after empty_email [EvCall DotenvConfig] empty_stage))
    by reflexivity.
  assert (Hreq : In "USER_EMAIL" required) by (simpl; tauto).
  assert (Hempty : env (after empty_email [EvCall DotenvConfig] empty_stage)
                     !! "USER_EMAIL" = Some "")
    by (vm_compute; reflexivity).
  split; [exact Hdot | split; [exact Hreq | split; [exact Hempty |]]].
  exact (proj1 (GlobalSetupMore.globalSetup_empty_value_is_missing
                  empty_email _ "USER_EMAIL" Hdot Hreq Hempty)).
Defined.

(** A refused login: the bootstrap is rejected and saves nothing. *)
Lemma globalSetup_needs_dashboard_witness :
  (forall x0 x1 : Refused,
     perform (PageWaitForURL ".*dashboard" 30000) x0 <> (Fulfilled tt, x1))
  /\ exists (e : Exn) (w' : World Refused) (events : list Event),
       GlobalSetup.globalSetup refused_login = Some (Rejected e, w')
       /\ trace w' = trace refused_login ++ EvCall DotenvConfig :: events
       /\ existsb is_storage_state events = false.
Proof.
  assert (Hnever : forall x0 x1 : Refused,
            perform (PageWaitForURL ".*dashboard" 30000) x0 <> (Fulfilled tt, x1))
    by (intros x0 x1; simpl; discriminate).
  split; [exact Hnever |].
  exact (GlobalSetupMore.globalSetup_needs_dashboard Hnever refused_login).
Defined.

(** With credentials and a driver that fulfils everything, the bootstrap
    is fulfilled. *)
Lemma globalSetup_fulfilled_witness :
  exists w' : World Stage,
    GlobalSetup.globalSetup with_credentials = Some (Fulfilled tt, w')
    /\ exists (w1 : World Stage) (before : list Event),
         ProcessEnv.dotenv_config with_credentials = Some (Fulfilled tt, w1)
         /\ quiet before
         /\ trace w' = trace w1 ++ before
                       ++ [EvCall ChromiumLaunch; EvCall BrowserNewPage]
                       ++ requested (authenticate_requests (env w1))
                       ++ [EvCall BrowserClose; EvCall final_log].
Proof.
  assert (Hrun : exists w' : World Stage,
            GlobalSetup.globalSetup with_credentials = Some (Fulfilled tt, w'))
    by (eexists; vm_compute; reflexivity).
  destruct Hrun as [w' Hrun]. exists w'. split; [exact Hrun |].
  exact (GlobalSetupMore.globalSetup_fulfilled_shape with_credentials w' Hrun).
Defined.


(** HEADLESS unset, default false asked for: the result is true. *)
Lemma falsy_defaults_witness :
  (∅ : gmap string string) !! env_key headless = None
  /\ getBooleanConfigValue ∅ headless (Some false) = Returns (JBoolean true).
Proof.
  assert (Hvar : (∅ : gmap string string) !! env_key headless = None) by reflexivity.
  split; [exact Hvar |].
  exact (proj1 (EnvConfigSpec.falsy_defaults_are_ignored ∅ headless Hvar)).
Defined.

(** An empty environment: the error names baseUrl only. *)
Lemma config_names_first_missing_witness :
  ProcessEnv.unset ∅ "BASE_URL" = true
  /\ config ∅ = Throws (Error "Configuration value for baseUrl is missing").
Proof.
  assert (Hunset : ProcessEnv.unset ∅ "BASE_URL" = true) by reflexivity.
  split; [exact Hunset |].
  exact (EnvConfigSpec.config_names_first_missing ∅ Hunset).
Defined.

(** With credentials the configuration is built, and the validation after
    it passes. *)
Lemma validateEnvironment_after_config_witness :
  exists c : Config,
    config (env with_credentials) = Returns c
    /\ Env.validateEnvironment with_credentials = Some (Fulfilled tt, with_credentials).
Proof.
  assert (Hc : exists c : Config, config (env with_credentials) = Returns c)
    by (eexists; vm_compute; reflexivity).
  destruct Hc as [c Hc]. exists c. split; [exact Hc |].
  exact (EnvConfigSpec.validateEnvironment_after_config with_credentials c Hc).
Defined.

(** a@b.c is accepted. *)
Lemma isValidEmail_witness :
  isValidEmail (code_units "a@b.c") = true
  /\ count_occ Z.eq_dec (code_units "a@b.c") 64 = 1%nat
  /\ Forall (fun c => is_space c = false) (code_units "a@b.c").
Proof.
  assert (Hvalid : isValidEmail (code_units "a@b.c") = true) by reflexivity.
  split; [exact Hvalid |].
  exact (ValidationHelperSpec.isValidEmail_one_at_no_space (code_units "a@b.c") Hvalid).
Defined.

End MoreRuns.
